(** * patches_fv_asym_calc: batch feature extraction over PDB files

    A shallow embedding of [patches_and_asym_parallel/patches_fv_asym_calc.py]
    and the properties of its pipeline: input resolution, hydrogen repair,
    the ImmunoPDB child process, feature calculation, the per-file Ray task
    and the orchestrator with its two collection modes.

    Modelling conventions.
    - Python values that change type along the way ([use_temp], [pH],
      [repeats]) are values of [pyval]; floats are binary64 ([PrimFloat]).
    - A function that can raise returns a [result]; stateful code runs in the
      state-and-exception monad [M S], whose state survives a raise (effects
      are not rolled back by [try]).
    - The file system is a finite map from [pathlib] parts to nodes.
    - The external collaborators (PDBFixer/OpenMM, the ImmunoPDB child
      process, propermab's configuration and feature functions, the Ray
      cluster) are not reimplemented: what each of their calls answers is an
      argument of the model ([repeat_env], the answer of the configuration
      reload, the cluster function and the [ray.wait] scheduler), and every
      theorem quantifies over it.
    - So is what the operating system answers when the script allocates a
      temporary file, opens a file by name (the repaired file, the
      annotator's log, the output file), writes to the annotator's log or
      to the output file, or closes the log: each of these calls takes an
      answer and raises when the answer is an exception.
    - The child process creates at most the file it is given after [-o];
      temporary files are allocated below [/tmp].
    - [pdb_processing.log] is opened once, by [logging.basicConfig] when the
      module is loaded; the records written to it afterwards are kept in the
      trace.  [os.path.exists] and [os.remove] act on the file system as it
      is. *)

From Stdlib Require Import Floats.PrimFloat ZArith Ascii String Permutation.
From stdpp Require Import gmap strings list fin_maps pretty.
From Equations Require Import Equations.

Set Warnings "-register-all".

(** ** Python values and exceptions *)

Module Py.

(** The subclasses of [Exception] that occur here. *)
Inductive exception :=
| ValueError (msg : string)
| TypeError (msg : string)
| LibraryError (origin : string)
| OSError (what : string)
| RayTaskError.

(** What a [raise] carries: an [Exception], or [SystemExit], which
    [except Exception] does not catch. *)
Inductive exn :=
| Exception (e : exception)
| SystemExit (code : Z).

Definition is_Exception (e : exn) : bool :=
  match e with
  | Exception _ => true
  | SystemExit _ => false
  end.

Inductive result (A : Type) :=
| Ok (a : A)
| Raise (e : exn).
Arguments Ok {A} a.
Arguments Raise {A} e.

(** What a call into a library or the spawning of a child answers: a value,
    or an [Exception]. *)
Inductive answer (A : Type) :=
| Returns (a : A)
| Raises (e : exception).
Arguments Returns {A} a.
Arguments Raises {A} e.

Definition answered {A} (x : answer A) : result A :=
  match x with
  | Returns a => Ok a
  | Raises e => Raise (Exception e)
  end.

Inductive pyval :=
| PyNone
| PyBool (b : bool)
| PyInt (z : Z)
| PyFloat (f : float)
| PyStr (s : string).

(** Truth value testing ([if x:]). *)
Definition truthy (v : pyval) : bool :=
  match v with
  | PyNone => false
  | PyBool b => b
  | PyInt z => negb (z =? 0)%Z
  | PyFloat f => negb (PrimFloat.eqb f 0%float)
  | PyStr s => negb (String.eqb s "")
  end.

(** [if file:] for a local that holds [None] or a [str]. *)
Definition truthy_str (o : option string) : bool :=
  match o with
  | None => false
  | Some s => negb (String.eqb s "")
  end.

(** [range(n)]: only integers (and booleans, which are integers). *)
Definition range (v : pyval) : result (list nat) :=
  match v with
  | PyInt z => Ok (seq 0 (Z.to_nat z))
  | PyBool b => Ok (seq 0 (if b then 1 else 0))
  | _ => Raise (Exception (TypeError "object cannot be interpreted as an integer"))
  end.

(** Positional binding of the optional parameters of a [def]: the arguments
    given fill the parameters left to right, the remaining parameters take
    their defaults, and one argument too many is a [TypeError]. *)
Definition bind_positional (defaults given : list pyval) : result (list pyval) :=
  if (length given <=? length defaults)%nat
  then Ok (given ++ drop (length given) defaults)
  else Raise (Exception (TypeError "too many positional arguments")).

(** [s.replace(old, new)] for a non-empty [old]: every non-overlapping
    occurrence, left to right.  [skip] counts the characters of an
    occurrence still to be dropped. *)
Fixpoint replace_from (old new : string) (skip : nat) (s : string) : string :=
  match s with
  | EmptyString => EmptyString
  | String c s' =>
      match skip with
      | S k => replace_from old new k s'
      | O =>
          if String.prefix old s
          then new +:+ replace_from old new (String.length old - 1) s'
          else String c (replace_from old new 0 s')
      end
  end.

Definition str_replace (old new s : string) : string := replace_from old new 0 s.

End Py.
Import Py.

(** ** The state-and-exception monad *)

Definition M (S A : Type) : Type := S -> result A * S.

Definition ret {S A} (a : A) : M S A := fun s => (Ok a, s).

Definition bind {S A B} (m : M S A) (k : A -> M S B) : M S B :=
  fun s =>
    match m s with
    | (Ok a, s') => k a s'
    | (Raise e, s') => (Raise e, s')
    end.

Definition raise {S A} (e : exn) : M S A := fun s => (Raise e, s).

Definition get {S} : M S S := fun s => (Ok s, s).

Definition modify {S} (f : S -> S) : M S unit := fun s => (Ok tt, f s).

Definition lift_result {S A} (r : result A) : M S A := fun s => (r, s).

(** [try: m  except Exception as e: h e]. *)
Definition try_except {S A} (m : M S A) (h : exn -> M S A) : M S A :=
  fun s =>
    match m s with
    | (Ok a, s') => (Ok a, s')
    | (Raise e, s') => if is_Exception e then h e s' else (Raise e, s')
    end.

(** [try: m  finally: fin].  The [finally] suite always runs; if it raises,
    its exception replaces the outcome of [m]. *)
Definition try_finally {S A} (m : M S A) (fin : M S unit) : M S A :=
  fun s =>
    match m s with
    | (r, s') =>
        match fin s' with
        | (Ok _, s'') => (r, s'')
        | (Raise e, s'') => (Raise e, s'')
        end
    end.

(** [for x in l: body x]. *)
Fixpoint for_each {S A} (l : list A) (body : A -> M S unit) : M S unit :=
  match l with
  | [] => ret tt
  | x :: l' => bind (body x) (fun _ => for_each l' body)
  end.

(** stdpp's monad notations: [x ← m; k] and [m ;; k]. *)
#[global] Instance M_ret {S} : MRet (M S) := fun A a => ret a.
#[global] Instance M_bind {S} : MBind (M S) := fun A B k m => bind m k.

(** ** pathlib and the file system *)

Module Pathlib.

(** A [PurePosixPath] is its tuple of parts; an absolute path starts with its
    root, the part ["/"] or (for exactly two leading slashes) ["//"]. *)
Definition path := list string.

Definition slash : ascii := "/"%char.
Definition dot : ascii := "."%char.

(** Split on ["/"]; [cur] is the component being read, reversed. *)
Fixpoint split_slash (s : string) (cur : string) : list string :=
  match s with
  | EmptyString => [String.rev cur]
  | String c s' =>
      if Ascii.eqb c slash
      then String.rev cur :: split_slash s' EmptyString
      else split_slash s' (String c cur)
  end.

Definition kept_component (c : string) : bool :=
  negb (String.eqb c "") && negb (String.eqb c ".").

(** The root of a path string: two leading slashes are kept, one or three
    and more are a single slash. *)
Definition root (s : string) : option string :=
  if String.prefix "///" s then Some "/"
  else if String.prefix "//" s then Some "//"
  else if String.prefix "/" s then Some "/"
  else None.

Definition is_root (a : string) : bool := String.eqb a "/" || String.eqb a "//".

(** [Path(s)]: empty and ["."] components are dropped, [".."] is kept. *)
Definition Path (s : string) : path :=
  let comps := List.filter kept_component (split_slash s EmptyString) in
  match root s with
  | Some r => r :: comps
  | None => comps
  end.

(** [str(p)]. *)
Definition str (p : path) : string :=
  match p with
  | [] => "."
  | a :: rest =>
      if is_root a then a +:+ String.concat "/" rest
      else String.concat "/" p
  end.

(** [p.name]: the final component, [""] for a root or the empty path. *)
Definition name (p : path) : string :=
  match List.rev p with
  | [] => ""
  | a :: _ => if is_root a then "" else a
  end.

(** [name.rfind('.')]: [pos] is the index of the head of [s]. *)
Fixpoint rfind_dot (s : string) (pos : nat) (found : option nat) : option nat :=
  match s with
  | EmptyString => found
  | String c s' =>
      rfind_dot s' (S pos) (if Ascii.eqb c dot then Some pos else found)
  end.

(** [p.suffix]: from the last dot of the name, provided that dot is neither
    the first nor the last character. *)
Definition suffix (p : path) : string :=
  let n := name p in
  match rfind_dot n 0 None with
  | Some i =>
      if (0 <? i)%nat && (i <? String.length n - 1)%nat
      then String.substring i (String.length n - i) n
      else ""
  | None => ""
  end.

(** [fnmatch] for patterns made of literal characters and [*]. *)
Fixpoint fnmatch (pat : string) : string -> bool :=
  match pat with
  | EmptyString => fun s => String.eqb s ""
  | String c pat' =>
      if Ascii.eqb c "*"%char
      then fix star (s : string) : bool :=
             fnmatch pat' s ||
             match s with
             | EmptyString => false
             | String _ s' => star s'
             end
      else fun s =>
             match s with
             | String d s' => Ascii.eqb c d && fnmatch pat' s'
             | EmptyString => false
             end
  end.

End Pathlib.
Import Pathlib.

(** JSON documents, as far as [json.dump] produces them here. *)
Inductive json :=
| JNumber (f : float)
| JArray (items : list json)
| JObject (fields : list (string * json)).

Inductive content :=
| Raw
| JsonText (doc : json).

Inductive node :=
| Dir
| File (data : content).

Abbreviation filesystem := (gmap path node).

Definition is_dir (fs : filesystem) (p : path) : bool :=
  match fs !! p with
  | Some Dir => true
  | _ => false
  end.

Definition is_file (fs : filesystem) (p : path) : bool :=
  match fs !! p with
  | Some (File _) => true
  | _ => false
  end.

(** [q] is an immediate child of [dir] whose name matches [pattern]. *)
Definition child_matching (dir : path) (pattern : string) (q : path) : bool :=
  match List.rev q with
  | nm :: rparent => bool_decide (List.rev rparent = dir) && fnmatch pattern nm
  | [] => false
  end.

(** [dir.glob(pattern)] for a pattern without a directory separator: the
    matching immediate children, of any kind, in enumeration order. *)
Definition glob (fs : filesystem) (dir : path) (pattern : string) : list path :=
  List.filter (child_matching dir pattern) (map fst (map_to_list fs)).

(** ** The world a process runs in *)

Inductive severity := ERROR | CRITICAL.

(** What the script asks of its collaborators and what it writes to its logs
    and to standard output, in order. *)
Inductive event :=
| ConfigReload (file : string)
| FixerLoad (filename : string)
| AddMissingHydrogens (pH : pyval)
| WritePdb (target : string)
| Spawn (argv : list string)
| ImmunoLog (text : string)
| Logged (level : severity) (msg : string)
| PatchFeatures (file : string)
| Featurizer (file : string)
| FvChml
| Printed (line : string).

Record world := World {
  fs : filesystem;
  next_tmp : nat;
  trace : list event
}.

Definition emit (e : event) : M world unit :=
  modify (fun w => World (fs w) (next_tmp w) (trace w ++ [e])).

(** [logging.error] and [logging.critical] append a record to
    [pdb_processing.log].  Where the source formats an exception or a time
    into a message, the message is recorded without it. *)
Definition logging_error (msg : string) : M world unit := emit (Logged ERROR msg).
Definition logging_critical (msg : string) : M world unit := emit (Logged CRITICAL msg).
Definition print (line : string) : M world unit := emit (Printed line).

(** A call into a library: the call is recorded, the library answers. *)
Definition external {A} (e : event) (x : answer A) : M world A :=
  emit e;; lift_result (answered x).

(** The file at [p] is created or truncated. *)
Definition create (p : path) (data : content) : M world unit :=
  modify (fun w => World (<[p := File data]> (fs w)) (next_tmp w) (trace w)).

(** The file at [p] is created if nothing is there. *)
Definition ensure_file (p : path) (fs : filesystem) : filesystem :=
  match fs !! p with
  | None => <[p := File Raw]> fs
  | Some _ => fs
  end.

(** The [n]-th name the temporary-file allocator hands out. *)
Definition temp_name (n : nat) (suffix : string) : string :=
  "/tmp/tmp" +:+ pretty n +:+ suffix.

(** [tempfile.NamedTemporaryFile(suffix=suffix, delete=False)], closed at
    once.  When the system answers, the file exists from here on, under a
    name not handed out before; when it raises, nothing was created. *)
Definition NamedTemporaryFile (x : answer unit) (suffix : string) : M world string :=
  lift_result (answered x);;
  w ← get;
  let nm := temp_name (next_tmp w) suffix in
  modify (fun w => World (<[Path nm := File Raw]> (fs w)) (S (next_tmp w)) (trace w));;
  mret nm.

(** [open(name, 'w')]: the file is created or truncated, unless the system
    raises. *)
Definition open_w (x : answer unit) (nm : string) (data : content) : M world unit :=
  lift_result (answered x);;
  create (Path nm) data.

(** [open(name, 'a')]: the file is created if it is missing, unless the
    system raises. *)
Definition open_a (x : answer unit) (nm : string) : M world unit :=
  lift_result (answered x);;
  modify (fun w => World (ensure_file (Path nm) (fs w)) (next_tmp w) (trace w)).

Definition os_path_exists (nm : string) : M world bool :=
  fun w => (Ok (bool_decide (is_Some (fs w !! Path nm))), w).

Definition os_remove (nm : string) : M world unit :=
  modify (fun w => World (delete (Path nm) (fs w)) (next_tmp w) (trace w)).

(** ** What the collaborators answer during one repeat *)

Record completed_process := CompletedProcess {
  returncode : Z;
  stdout : string;
  stderr : string
}.

Abbreviation features := (gmap string float).

Record repeat_env := RepeatEnv {
  tmp_fixed : answer unit;               (* NamedTemporaryFile(suffix=".pdb") *)
  fixer_load : answer unit;              (* PDBFixer(filename=...) *)
  fixer_add_hydrogens : answer unit;     (* fixer.addMissingHydrogens(pH=pH) *)
  open_fixed : answer unit;              (* open(fix_name, 'w') *)
  pdbfile_write : answer unit;           (* PDBFile.writeFile(...) and closing f *)
  tmp_output : answer unit;              (* NamedTemporaryFile(suffix="_immuno_output.pdb") *)
  subprocess_run : answer completed_process;  (* subprocess.run([...]) *)
  child_writes_output : bool;            (* the child created its -o file *)
  log_open : answer unit;                (* open("immunopdb.log", "a") *)
  log_header : answer unit;              (* log_file.write("Processing ...") *)
  log_stdout : answer unit;              (* log_file.write(result.stdout) *)
  log_errors : answer unit;              (* log_file.write of the child's stderr *)
  log_close : answer unit;               (* leaving the with block *)
  patch_features : answer features;      (* feature_utils.calculate_patch_features *)
  featurizer_init : answer unit;         (* StructFeaturizer(path) *)
  fv_chml : answer float                 (* featurizer.fv_chml() *)
}.

(** ** get_pdb_files *)

Definition invalid_input : exn :=
  Exception (ValueError "Invalid input path. Must be a PDB file or a directory containing PDB files.").

Definition get_pdb_files (input_path : string) : M world (list path) :=
  fun w =>
    let input_path := Path input_path in
    if is_dir (fs w) input_path then
      (Ok (glob (fs w) input_path "*.pdb"), w)
    else if is_file (fs w) input_path && String.eqb (suffix input_path) ".pdb" then
      (Ok [input_path], w)
    else
      (Raise invalid_input, w).

(** ** add_hydrogens *)

Definition add_hydrogens (env : repeat_env) (pdb_file_path : string) (pH : pyval)
  : M world string :=
  fix_name ← NamedTemporaryFile (tmp_fixed env) ".pdb";
  external (FixerLoad pdb_file_path) (fixer_load env);;
  external (AddMissingHydrogens pH) (fixer_add_hydrogens env);;
  open_w (open_fixed env) fix_name Raw;;
  external (WritePdb fix_name) (pdbfile_write env);;
  mret fix_name.

(** ** calculate_features *)

Definition calculate_features (env : repeat_env) (fixed_pdb_path : string)
  : M world features :=
  mol_feature ← external (PatchFeatures fixed_pdb_path) (patch_features env);
  external (Featurizer fixed_pdb_path) (featurizer_init env);;
  charge_asym ← external FvChml (fv_chml env);
  mret (<["charge_asym" := charge_asym]> mol_feature).

(** ** run_immunopdb *)

Definition newline : string := String (ascii_of_nat 10) EmptyString.

(** [subprocess.run([...], capture_output=True, text=True)]: whether the
    child created the file named after [-o] does not depend on whether the
    call returns (it raises, for one, when the output of a child that ran
    cannot be decoded). *)
Definition run_child (env : repeat_env) (argv : list string) (output_file : string)
  : M world completed_process :=
  emit (Spawn argv);;
  (if child_writes_output env then create (Path output_file) Raw else mret tt);;
  lift_result (answered (subprocess_run env)).

(** One [log_file.write(text)]. *)
Definition log_write (x : answer unit) (text : string) : M world unit :=
  lift_result (answered x);;
  emit (ImmunoLog text).

Definition run_immunopdb (env : repeat_env) (fixed_pdb_path : string)
    (use_temp log_output : pyval) : M world (option string) :=
  immuno_output_file ←
    (if truthy use_temp
     then NamedTemporaryFile (tmp_output env) "_immuno_output.pdb"
     else mret (str_replace ".pdb" "_immuno_output.pdb" fixed_pdb_path));
  try_except
    (result ← run_child env
       ["python"; "ImmunoPDB.py"; "-i"; fixed_pdb_path; "-o"; immuno_output_file]
       immuno_output_file;
     open_a (log_open env) "immunopdb.log";;
     log_write (log_header env)
       ("Processing " +:+ fixed_pdb_path +:+ ":" +:+ newline);;
     (if truthy log_output then log_write (log_stdout env) (stdout result)
      else mret tt);;
     (if negb (String.eqb (stderr result) "")
      then log_write (log_errors env)
             (newline +:+ "Errors:" +:+ newline +:+ stderr result);;
           logging_error ("ImmunoPDB error for " +:+ fixed_pdb_path +:+ ": "
                          +:+ stderr result)
      else mret tt);;
     lift_result (answered (log_close env));;
     mret (if (returncode result =? 0)%Z then Some immuno_output_file else None))
    (fun e =>
       logging_error ("Failed to run ImmunoPDB on " +:+ fixed_pdb_path);;
       mret None).

(** ** process_pdb_file: the per-file task *)

(** The task's frame: the worker's world and the locals that the [try] suite
    assigns and the [finally] suite reads. *)
Record frame := Frame {
  here : world;
  fixed_pdb_path : option string;
  immuno_output : option string;
  all_results : list features
}.

Definition in_world {A} (m : M world A) : M frame A :=
  fun st =>
    match m (here st) with
    | (r, w') => (r, Frame w' (fixed_pdb_path st) (immuno_output st) (all_results st))
    end.

Definition assign_fixed_pdb_path (v : string) : M frame unit :=
  modify (fun st => Frame (here st) (Some v) (immuno_output st) (all_results st)).

Definition assign_immuno_output (v : option string) : M frame unit :=
  modify (fun st => Frame (here st) (fixed_pdb_path st) v (all_results st)).

Definition all_results_append (x : features) : M frame unit :=
  modify (fun st => Frame (here st) (fixed_pdb_path st) (immuno_output st)
                      (all_results st ++ [x])).

(** One pass of [if file and os.path.exists(file): os.remove(file)]. *)
Definition remove_if_present (file : option string) : M world unit :=
  match file with
  | Some f =>
      if truthy_str (Some f)
      then (present ← os_path_exists f;
            if (present : bool) then os_remove f else mret tt)
      else mret tt
  | None => mret tt
  end.

(** The [try] suite of one repeat. *)
Definition try_suite (env : repeat_env) (pdb_file_path : string) (use_temp pH : pyval)
  : M frame unit :=
  fixed ← in_world (add_hydrogens env pdb_file_path pH);
  assign_fixed_pdb_path fixed;;
  out ← in_world (run_immunopdb env fixed use_temp (PyBool false));
  assign_immuno_output out;;
  match out with
  | Some f =>
      if truthy_str (Some f)
      then mol_feature ← in_world (calculate_features env f);
           all_results_append mol_feature
      else in_world (logging_error ("Skipping feature calculation for "
                       +:+ pdb_file_path +:+ " due to ImmunoPDB failure."))
  | None =>
      in_world (logging_error ("Skipping feature calculation for "
                  +:+ pdb_file_path +:+ " due to ImmunoPDB failure."))
  end.

(** The [finally] suite: the list is built from the locals as they are when
    the suite starts. *)
Definition finally_suite : M frame unit :=
  st ← get;
  for_each [fixed_pdb_path st; immuno_output st]
    (fun file => in_world (remove_if_present file)).

(** The body of [for i in range(repeats)]. *)
Definition iteration (env : nat -> repeat_env) (pdb_file_path : string)
    (use_temp pH : pyval) (i : nat) : M frame unit :=
  try_finally
    (try_except
       (try_suite (env i) pdb_file_path use_temp pH)
       (fun e => in_world (logging_error ("Error processing " +:+ pdb_file_path
                             +:+ " (Iteration " +:+ pretty (i + 1) +:+ ")"))))
    finally_suite.

Abbreviation file_result := (gmap string (list features)).

(** [reload] is what [defaults.system_config.update_from_json] answers. *)
Definition process_pdb_file_frame (reload : answer unit) (env : nat -> repeat_env)
    (pdb_file_path : string) (repeats use_temp pH : pyval) : M frame file_result :=
  in_world (external (ConfigReload "../default_config.json") reload);;
  indices ← lift_result (range repeats);
  for_each indices (iteration env pdb_file_path use_temp pH);;
  st ← get;
  mret ({[ pdb_file_path := all_results st ]} : file_result).

(** [process_pdb_file(pdb_file_path, repeats=1, use_temp=False, pH=7.0)],
    run on a worker whose world is [w]. *)
Definition process_pdb_file (reload : answer unit) (env : nat -> repeat_env)
    (pdb_file_path : string) (repeats use_temp pH : pyval) : M world file_result :=
  fun w =>
    match process_pdb_file_frame reload env pdb_file_path repeats use_temp pH
            (Frame w None None []) with
    | (r, st) => (r, here st)
    end.

(** ** Ray: remote calls, [ray.get] and [ray.wait] *)

(** A call of the remote function with its parameters bound. *)
Record task_call := TaskCall {
  call_pdb_file_path : string;
  call_repeats : pyval;
  call_use_temp : pyval;
  call_pH : pyval
}.

(** [process_pdb_file.remote(pdb_file_path, *given)]: the arguments after the
    first fill [repeats], [use_temp], [pH] in this order. *)
Definition process_pdb_file_remote (pdb_file_path : string) (given : list pyval)
  : result task_call :=
  match bind_positional [PyInt 1; PyBool false; PyFloat 7.0] given with
  | Ok [repeats; use_temp; pH] => Ok (TaskCall pdb_file_path repeats use_temp pH)
  | Ok _ => Raise (Exception (TypeError "process_pdb_file: wrong number of parameters"))
  | Raise e => Raise e
  end.

(** A worker, whose world is [w], runs a call; [reload] and [env] give, for
    each file, what the collaborators answer to its task. *)
Definition worker (reload : string -> answer unit) (env : string -> nat -> repeat_env)
    (w : world) (c : task_call) : result file_result * world :=
  process_pdb_file (reload (call_pdb_file_path c)) (env (call_pdb_file_path c))
    (call_pdb_file_path c) (call_repeats c) (call_use_temp c) (call_pH c) w.

(** What [ray.get] obtains for that call: the value the task returned, or
    [RayTaskError] if the task raised. *)
Definition run_call (reload : string -> answer unit)
    (env : string -> nat -> repeat_env) (w : world) (c : task_call)
  : answer file_result :=
  match fst (worker reload env w c) with
  | Ok r => Returns r
  | Raise _ => Raises RayTaskError
  end.

Fixpoint map_answer {A B} (f : A -> answer B) (l : list A) : answer (list B) :=
  match l with
  | [] => Returns []
  | x :: l' =>
      match f x with
      | Returns y =>
          match map_answer f l' with
          | Returns ys => Returns (y :: ys)
          | Raises e => Raises e
          end
      | Raises e => Raises e
      end
  end.

Section Ray.

(** An object reference stands for the call it was returned by; [cluster]
    is what [ray.get] obtains for it. *)
Variable cluster : task_call -> answer file_result.

(** Which of the pending tasks [ray.wait] reports next (an index into the
    pending list, taken modulo its length). *)
Variable next_done : list task_call -> nat.

Definition ray_get (refs : list task_call) : answer (list file_result) :=
  map_answer cluster refs.

(** [ray.wait(tasks, num_returns=1)] on a non-empty list. *)
Definition ray_wait (tasks : list task_call) : list task_call * list task_call :=
  let k := next_done tasks mod length tasks in
  (option_list (tasks !! k), delete k tasks).

Lemma ray_wait_shrinks t ts :
  (length (snd (ray_wait (t :: ts))) < length (t :: ts))%nat.
Proof.
  unfold ray_wait; cbn [snd].
  set (k := next_done (t :: ts) mod length (t :: ts)).
  assert (Hk : (k < length (t :: ts))%nat)
    by (apply Nat.mod_upper_bound; discriminate).
  rewrite length_delete by (apply lookup_lt_is_Some_2; exact Hk).
  cbn [length] in *. lia.
Qed.

(** [while tasks: done, tasks = ray.wait(tasks, num_returns=1);
    results.extend(ray.get(done))]. *)
Equations? wait_loop (tasks : list task_call) (results : list file_result)
  : answer (list file_result) by wf (length tasks) lt :=
wait_loop [] results := Returns results;
wait_loop (t :: ts) results :=
  match ray_get (fst (ray_wait (t :: ts))) with
  | Returns got => wait_loop (snd (ray_wait (t :: ts))) (results ++ got)
  | Raises e => Raises e
  end.
Proof. apply ray_wait_shrinks. Qed.

End Ray.

(** ** run_processing: the orchestrator *)

(** [json.dump(results, f, indent=4)] as a document: an array with one
    object per file result; the keys of an object are listed as the map
    enumerates them. *)
Definition features_json (m : features) : json :=
  JObject (map (fun kv => (fst kv, JNumber (snd kv))) (map_to_list m)).

Definition file_result_json (r : file_result) : json :=
  JObject (map (fun kv => (fst kv, JArray (map features_json (snd kv))))
             (map_to_list r)).

Definition results_json (results : list file_result) : json :=
  JArray (map file_result_json results).

(** What happens when the results are written: the file is opened and the
    document written; or [open] raises; or the file is opened, hence created
    or truncated, and [json.dump] or the closing of the file raises, so that
    the document is not known to be complete. *)
Inductive write_answer :=
| Written
| OpenRaises (e : exception)
| DumpRaises (e : exception).

(** [with open(output_file, "w") as f: json.dump(results, f, indent=4)]. *)
Definition json_dump (x : write_answer) (results : list file_result)
    (output_file : string) : M world unit :=
  match x with
  | Written => create (Path output_file) (JsonText (results_json results))
  | OpenRaises e => raise (Exception e)
  | DumpRaises e => create (Path output_file) Raw;; raise (Exception e)
  end.

(** The process running the orchestrator: its world and the remote calls it
    has submitted so far. *)
Record driver := Driver {
  host : world;
  submitted : list task_call
}.

Definition on_host {A} (m : M world A) : M driver A :=
  fun d =>
    match m (host d) with
    | (r, w') => (r, Driver w' (submitted d))
    end.

(** [process_pdb_file.remote(...)]: binds the arguments and hands the call
    to the cluster; the object reference returned stands for the call. *)
Definition remote (pdb_file_path : string) (given : list pyval) : M driver task_call :=
  c ← lift_result (process_pdb_file_remote pdb_file_path given);
  modify (fun d => Driver (host d) (submitted d ++ [c]));;
  mret c.

(** [[f x for x in l]]. *)
Fixpoint comprehension {S A B} (f : A -> M S B) (l : list A) : M S (list B) :=
  match l with
  | [] => mret []
  | x :: l' => y ← f x; ys ← comprehension f l'; mret (y :: ys)
  end.

Section RunProcessing.

Variable cluster : task_call -> answer file_result.
Variable next_done : list task_call -> nat.

(** What writing the output file answers. *)
Variable output : write_answer.

(** The elapsed time is left out of the line printed at the end. *)
Definition run_processing (input_path : string) (repeats : Z) (pH : float)
    (use_ray_wait : bool) (output_file : string) : M driver unit :=
  pdb_files ← on_host (get_pdb_files input_path);
  tasks ← comprehension
             (fun pdb => remote (str pdb) [PyInt repeats; PyFloat pH]) pdb_files;
  try_except
    (results ← lift_result
                 (answered
                    (if use_ray_wait
                     then wait_loop cluster next_done tasks []
                     else ray_get cluster tasks));
     on_host (json_dump output results output_file);;
     on_host (print ("Processing complete. Results saved to " +:+ output_file)))
    (fun fatal_error =>
       on_host (print "ERROR");;
       on_host (logging_critical "ERROR");;
       raise (SystemExit 1)).

(** The command line: [input], [-r/--repeats], [-w/--wait], [-o/--output],
    [--pH], with their defaults. *)
Record cli := Cli {
  cli_input : string;
  cli_repeats : Z;
  cli_wait : bool;
  cli_output : string;
  cli_pH : float
}.

Definition cli_defaults (input : string) : cli :=
  Cli input 1 false "molecular_features.json" 7.0.

Definition main (args : cli) : M driver unit :=
  run_processing (cli_input args) (cli_repeats args) (cli_pH args)
    (cli_wait args) (cli_output args).

End RunProcessing.

(** The status the interpreter exits with. *)
Definition exit_code {A} (r : result A) : Z :=
  match r with
  | Ok _ => 0
  | Raise (SystemExit code) => code
  | Raise _ => 1
  end.

Definition fresh_driver (w : world) : driver := Driver w [].


(** * Vocabulary of the properties *)

(** ** What one repeat yields *)

Definition returns {A} (x : answer A) : bool :=
  match x with
  | Returns _ => true
  | Raises _ => false
  end.

(** [add_hydrogens] returns: the temporary file was allocated, the structure
    loaded, the hydrogens added, the file reopened and written. *)
Definition repaired (env : repeat_env) : bool :=
  returns (tmp_fixed env) && returns (fixer_load env)
  && returns (fixer_add_hydrogens env) && returns (open_fixed env)
  && returns (pdbfile_write env).

(** The child process ran and exited with status zero. *)
Definition exited_zero (env : repeat_env) : bool :=
  match subprocess_run env with
  | Returns cp => (returncode cp =? 0)%Z
  | Raises _ => false
  end.

(** [run_immunopdb] gets past the choice of its output path: it allocates a
    temporary file only when [use_temp] is true. *)
Definition allocated (use_temp : pyval) (env : repeat_env) : bool :=
  negb (truthy use_temp) || returns (tmp_output env).

(** The [with open("immunopdb.log", "a")] block of [run_immunopdb] is
    reached and runs to its end: [subprocess.run] returned, the log was
    opened, each write that the block makes went through, and the log was
    closed. *)
Definition log_kept (env : repeat_env) (log_output : pyval) : bool :=
  match subprocess_run env with
  | Returns child =>
      returns (log_open env) && returns (log_header env)
      && (negb (truthy log_output) || returns (log_stdout env))
      && (String.eqb (stderr child) "" || returns (log_errors env))
      && returns (log_close env)
  | Raises _ => false
  end.

(** [run_immunopdb], called as the task calls it (without [log_output]),
    returns a path: the child exited with status zero and the log was
    kept. *)
Definition annotated (use_temp : pyval) (env : repeat_env) : bool :=
  allocated use_temp env && exited_zero env && log_kept env (PyBool false).

Definition computed (env : repeat_env) : option features :=
  match patch_features env, featurizer_init env, fv_chml env with
  | Returns m, Returns _, Returns v => Some (<["charge_asym" := v]> m)
  | _, _, _ => None
  end.

(** The feature mapping a repeat appends to [all_results], if any. *)
Definition repeat_yield (use_temp : pyval) (env : repeat_env) : option features :=
  if repaired env && annotated use_temp env then computed env else None.

Definition rooted (s : string) : Prop := exists rest, s = String slash rest.

(** The path [run_immunopdb] hands to the child as its [-o] argument. *)
Definition immuno_output_file (use_temp : pyval) (fixed_pdb_path : string) (w : world)
  : string :=
  if truthy use_temp
  then temp_name (next_tmp w) "_immuno_output.pdb"
  else str_replace ".pdb" "_immuno_output.pdb" fixed_pdb_path.

(** The two ways [run_processing] collects the results of its tasks. *)
Definition collect (cluster : task_call -> answer file_result)
    (next_done : list task_call -> nat) (use_ray_wait : bool)
    (tasks : list task_call) : answer (list file_result) :=
  if use_ray_wait then wait_loop cluster next_done tasks []
  else ray_get cluster tasks.

(** ** What the orchestrator does *)

(** The call that [process_pdb_file.remote(str(pdb), repeats, pH)] submits:
    the third argument lands in [use_temp], and [pH] keeps its default. *)
Definition submission (repeats : Z) (pH : float) (pdb : path) : task_call :=
  TaskCall (str pdb) (PyInt repeats) (PyFloat pH) (PyFloat 7.0).

(** The host's world after a run that wrote its results. *)
Definition finished (w : world) (output_file : string) (results : list file_result)
  : world :=
  World (<[Path output_file := File (JsonText (results_json results))]> (fs w))
    (next_tmp w)
    (trace w ++ [Printed ("Processing complete. Results saved to " +:+ output_file)]).

(** The host's world after a fatal error. *)
Definition failed (w : world) : world :=
  World (fs w) (next_tmp w) (trace w ++ [Printed "ERROR"; Logged CRITICAL "ERROR"]).

(** The host's world once the output file was opened for writing and the
    document did not get written. *)
Definition truncated (w : world) (output_file : string) : world :=
  World (<[Path output_file := File Raw]> (fs w)) (next_tmp w) (trace w).

(** What the task for [pdb] returns when its configuration reload returns,
    given what the collaborators answer; the orchestrator passes [pH] as
    [use_temp]. *)
Definition task_value (env : string -> nat -> repeat_env) (repeats : Z) (pH : float)
    (pdb : path) : file_result :=
  {[ str pdb := omap (fun i => repeat_yield (PyFloat pH) (env (str pdb) i))
                  (seq 0 (Z.to_nat repeats)) ]}.

(** ** Observations on a run *)

(** The pH values at which hydrogens were added, in order. *)
Definition hydrogen_pHs (t : list event) : list pyval :=
  omap (fun e => match e with AddMissingHydrogens v => Some v | _ => None end) t.

(** The entries of [w'] that [w] did not have. *)
Definition new_entries (w w' : world) : list path :=
  List.filter (fun p => bool_decide (fs w !! p = None)) (map fst (map_to_list (fs w'))).

(** The document in the output file, if there is one. *)
Definition written (w : world) (output_file : string) : option json :=
  match fs w !! Path output_file with
  | Some (File (JsonText doc)) => Some doc
  | _ => None
  end.

(** ** Observations on the file system, the logs and the calls *)

(** The regular files among the entries of [dir] whose name matches
    [pattern]. *)
Definition matching_files (fs : filesystem) (dir : path) (pattern : string)
  : list path :=
  List.filter (is_file fs) (glob fs dir pattern).

(** The object written for one file: its only key is the file's path.  The
    command-line pH reaches the task as [use_temp]. *)
Definition file_object (env : string -> nat -> repeat_env) (repeats : Z) (pH : float)
    (pdb : path) : json :=
  JObject [(str pdb,
            JArray (map features_json
                      (omap (fun i => repeat_yield (PyFloat pH) (env (str pdb) i))
                         (seq 0 (Z.to_nat repeats)))))].

(** The temporary file was allocated and the structure loaded, so
    [addMissingHydrogens] is reached. *)
Definition loads (env : repeat_env) : bool :=
  returns (tmp_fixed env) && returns (fixer_load env).

(** [subprocess.run] returned. *)
Definition child_ran (env : repeat_env) : bool := returns (subprocess_run env).

(** The child created its output file. *)
Definition child_wrote (env : repeat_env) : bool := child_writes_output env.

(** [if file and os.path.exists(file): os.remove(file)] on a file system. *)
Definition remove_local (file : option string) (fs : filesystem) : filesystem :=
  match file with
  | Some f => if truthy_str (Some f) then delete (Path f) fs else fs
  | None => fs
  end.

(** What [add_hydrogens] does to the file system: the temporary file, if it
    could be allocated. *)
Definition repair_files (env : repeat_env) (n : nat) (fs : filesystem) : filesystem :=
  if returns (tmp_fixed env)
  then <[Path (temp_name n ".pdb") := File Raw]> fs
  else fs.

(** What [run_immunopdb] does to the file system when it gets past the
    choice of its output path [out]: the output file, allocated or created
    by the child, and the log, once [subprocess.run] has returned. *)
Definition annotate_files (env : repeat_env) (use_temp : pyval) (out : string)
    (fs : filesystem) : filesystem :=
  let fs1 := if truthy use_temp || child_wrote env
             then <[Path out := File Raw]> fs else fs in
  if child_ran env && returns (log_open env)
  then ensure_file (Path "immunopdb.log") fs1
  else fs1.

(** The files [calculate_patch_features] was called on, in order. *)
Definition feature_calls (t : list event) : list string :=
  omap (fun e => match e with PatchFeatures f => Some f | _ => None end) t.

(** The [-o] path of a repeat that starts when [n] names have been handed
    out. *)
Definition out_name (use_temp : pyval) (n : nat) : string :=
  if truthy use_temp
  then temp_name (S n) "_immuno_output.pdb"
  else str_replace ".pdb" "_immuno_output.pdb" (temp_name n ".pdb").

(** The repeat gets as far as running the child. *)
Definition spawned (use_temp : pyval) (env : repeat_env) : bool :=
  repaired env && allocated use_temp env.

(** A path string below [/tmp], and a path below [/tmp]. *)
Definition in_tmp (s : string) : Prop := exists r, s = "/tmp/" +:+ r.
Definition tmp_path (q : path) : Prop := exists rest, q = "/" :: "tmp" :: rest.
Definition local_in_tmp (file : option string) : Prop :=
  forall f, file = Some f -> in_tmp f.

Definition immunopdb_log : path := Path "immunopdb.log".

(** What a task keeps true from one repeat to the next: nothing but the
    annotator's log and the entries below [/tmp] differs from the world [w0]
    it started in, and its two locals hold nothing or a path below [/tmp]. *)
Definition confined (w0 : world) (st : frame) : Prop :=
  (forall q, ~ tmp_path q -> q <> immunopdb_log -> fs (here st) !! q = fs w0 !! q)
  /\ local_in_tmp (fixed_pdb_path st)
  /\ local_in_tmp (immuno_output st).

(** No entry of the file system sits at a name that the allocator has yet to
    hand out, or at the output name derived from one (what
    [NamedTemporaryFile] guarantees for its own names). *)
Definition names_unused (w : world) : Prop :=
  forall n use_temp, (next_tmp w <= n)%nat ->
    fs w !! Path (temp_name n ".pdb") = None
    /\ fs w !! Path (out_name use_temp n) = None.

(** The messages of the ERROR records in a trace, in order. *)
Definition logged_errors (t : list event) : list string :=
  omap (fun e => match e with Logged ERROR msg => Some msg | _ => None end) t.

(** The standard error of the child, when it is not empty and
    [run_immunopdb] gets as far as logging it: [subprocess.run] returned,
    the log was opened and the writes before that point went through. *)
Definition stderr_logged (env : repeat_env) (log_output : pyval) : option string :=
  match subprocess_run env with
  | Returns child =>
      if returns (log_open env) && returns (log_header env)
         && (negb (truthy log_output) || returns (log_stdout env))
         && negb (String.eqb (stderr child) "") && returns (log_errors env)
      then Some (stderr child) else None
  | Raises _ => None
  end.

(** The ERROR records of one call of [run_immunopdb] that got past the
    choice of its output path. *)
Definition immuno_errors (env : repeat_env) (fixed_pdb_path : string)
    (log_output : pyval) : list string :=
  match stderr_logged env log_output with
  | Some err => ["ImmunoPDB error for " +:+ fixed_pdb_path +:+ ": " +:+ err]
  | None => []
  end
  ++ (if log_kept env log_output then []
      else ["Failed to run ImmunoPDB on " +:+ fixed_pdb_path]).

(** The output file was opened and the document written to it. *)
Definition output_written (x : write_answer) : bool :=
  match x with
  | Written => true
  | OpenRaises _ | DumpRaises _ => false
  end.

(** ** Sample worlds and collaborators *)

Module Sample.

(** [data/] holds two structure files and a text file; [empty/] holds a
    text file only; [nested/] holds only a directory named [sub.pdb]. *)
Definition disk : filesystem :=
  list_to_map
    [ (["data"], Dir);
      (["data"; "a.pdb"], File Raw);
      (["data"; "b.pdb"], File Raw);
      (["data"; "notes.txt"], File Raw);
      (["empty"], Dir);
      (["empty"; "readme.txt"], File Raw);
      (["nested"], Dir);
      (["nested"; "sub.pdb"], Dir) ].

Definition start : world := World disk 0 [].

Definition some_features : features := {[ "patch_pos" := 2.5%float ]}.

(** Every collaborator answers. *)
Definition all_well : repeat_env :=
  {| tmp_fixed := Returns tt;
     fixer_load := Returns tt;
     fixer_add_hydrogens := Returns tt;
     open_fixed := Returns tt;
     pdbfile_write := Returns tt;
     tmp_output := Returns tt;
     subprocess_run := Returns (CompletedProcess 0 "" "");
     child_writes_output := true;
     log_open := Returns tt;
     log_header := Returns tt;
     log_stdout := Returns tt;
     log_errors := Returns tt;
     log_close := Returns tt;
     patch_features := Returns some_features;
     featurizer_init := Returns tt;
     fv_chml := Returns 0.25%float |}.

(** PDBFixer rejects the file. *)
Definition malformed : repeat_env :=
  {| tmp_fixed := Returns tt;
     fixer_load := Raises (LibraryError "pdbfixer");
     fixer_add_hydrogens := Returns tt;
     open_fixed := Returns tt;
     pdbfile_write := Returns tt;
     tmp_output := Returns tt;
     subprocess_run := Returns (CompletedProcess 0 "" "");
     child_writes_output := true;
     log_open := Returns tt;
     log_header := Returns tt;
     log_stdout := Returns tt;
     log_errors := Returns tt;
     log_close := Returns tt;
     patch_features := Returns some_features;
     featurizer_init := Returns tt;
     fv_chml := Returns 0.25%float |}.

(** ImmunoPDB exits with status 1 and writes nothing. *)
Definition annotator_fails : repeat_env :=
  {| tmp_fixed := Returns tt;
     fixer_load := Returns tt;
     fixer_add_hydrogens := Returns tt;
     open_fixed := Returns tt;
     pdbfile_write := Returns tt;
     tmp_output := Returns tt;
     subprocess_run := Returns (CompletedProcess 1 "" "numbering failed");
     child_writes_output := false;
     log_open := Returns tt;
     log_header := Returns tt;
     log_stdout := Returns tt;
     log_errors := Returns tt;
     log_close := Returns tt;
     patch_features := Returns some_features;
     featurizer_init := Returns tt;
     fv_chml := Returns 0.25%float |}.

(** ImmunoPDB exits with status 0, but [immunopdb.log] cannot be opened. *)
Definition log_unwritable : repeat_env :=
  {| tmp_fixed := Returns tt;
     fixer_load := Returns tt;
     fixer_add_hydrogens := Returns tt;
     open_fixed := Returns tt;
     pdbfile_write := Returns tt;
     tmp_output := Returns tt;
     subprocess_run := Returns (CompletedProcess 0 "" "");
     child_writes_output := true;
     log_open := Raises (OSError "immunopdb.log: permission denied");
     log_header := Returns tt;
     log_stdout := Returns tt;
     log_errors := Returns tt;
     log_close := Returns tt;
     patch_features := Returns some_features;
     featurizer_init := Returns tt;
     fv_chml := Returns 0.25%float |}.

(** ImmunoPDB exits with status 0 and [immunopdb.log] is opened, but what
    was written to it cannot be flushed when it is closed. *)
Definition log_full : repeat_env :=
  {| tmp_fixed := Returns tt;
     fixer_load := Returns tt;
     fixer_add_hydrogens := Returns tt;
     open_fixed := Returns tt;
     pdbfile_write := Returns tt;
     tmp_output := Returns tt;
     subprocess_run := Returns (CompletedProcess 0 "" "");
     child_writes_output := true;
     log_open := Returns tt;
     log_header := Returns tt;
     log_stdout := Returns tt;
     log_errors := Returns tt;
     log_close := Raises (OSError "immunopdb.log: no space left on device");
     patch_features := Returns some_features;
     featurizer_init := Returns tt;
     fv_chml := Returns 0.25%float |}.

(** No temporary file can be allocated for the annotator's output. *)
Definition no_temp_output : repeat_env :=
  {| tmp_fixed := Returns tt;
     fixer_load := Returns tt;
     fixer_add_hydrogens := Returns tt;
     open_fixed := Returns tt;
     pdbfile_write := Returns tt;
     tmp_output := Raises (OSError "no usable temporary directory");
     subprocess_run := Returns (CompletedProcess 0 "" "");
     child_writes_output := true;
     log_open := Returns tt;
     log_header := Returns tt;
     log_stdout := Returns tt;
     log_errors := Returns tt;
     log_close := Returns tt;
     patch_features := Returns some_features;
     featurizer_init := Returns tt;
     fv_chml := Returns 0.25%float |}.

(** The second repeat of every file hits a malformed structure. *)
Definition second_repeat_fails (_ : string) (i : nat) : repeat_env :=
  if (i =? 1)%nat then malformed else all_well.

(** The configuration file is there, or is missing. *)
Definition config_found : answer unit := Returns tt.
Definition config_missing : answer unit :=
  Raises (OSError "../default_config.json: no such file").

End Sample.

(** * Properties *)

(** ** The steps of one repeat *)

Ltac run_monad :=
  cbv beta iota zeta delta
    [mbind mret M_bind M_ret bind ret external emit modify get raise
     lift_result answered create open_w open_a log_write in_world try_except
     try_finally logging_error logging_critical print is_Exception] in *.

Lemma temp_name_rooted n suffix : rooted (temp_name n suffix).
Proof. unfold temp_name. cbn. eexists. reflexivity. Qed.

Lemma add_hydrogens_run env p pH w :
  (repaired env = true /\
   exists w', add_hydrogens env p pH w = (Ok (temp_name (next_tmp w) ".pdb"), w')) \/
  (repaired env = false /\
   exists e w', add_hydrogens env p pH w = (Raise (Exception e), w')).
Proof.
  unfold add_hydrogens, repaired, NamedTemporaryFile. run_monad.
  destruct (tmp_fixed env) as [[]|e0]; cbn; [|right; eauto].
  destruct (fixer_load env) as [[]|e1]; cbn; [|right; eauto].
  destruct (fixer_add_hydrogens env) as [[]|e2]; cbn; [|right; eauto].
  destruct (open_fixed env) as [[]|e3]; cbn; [|right; eauto].
  destruct (pdbfile_write env) as [[]|e4]; cbn; [|right; eauto].
  left. eauto.
Qed.

Lemma str_replace_rooted new s :
  rooted s -> rooted (str_replace ".pdb" new s).
Proof. intros [rest ->]. unfold str_replace. cbn. eexists. reflexivity. Qed.

Lemma rooted_truthy s : rooted s -> truthy_str (Some s) = true.
Proof. intros [rest ->]. reflexivity. Qed.

Lemma immuno_output_file_rooted use_temp fixed w :
  rooted fixed -> rooted (immuno_output_file use_temp fixed w).
Proof.
  intros Hf. unfold immuno_output_file. destruct (truthy use_temp).
  - apply temp_name_rooted.
  - now apply str_replace_rooted.
Qed.

(** [run_immunopdb] when it cannot allocate its temporary output file: the
    exception goes to the caller and nothing has happened. *)
Lemma run_immunopdb_raises env fixed use_temp log_output w :
  allocated use_temp env = false ->
  exists e,
    truthy use_temp = true /\ tmp_output env = Raises e
    /\ run_immunopdb env fixed use_temp log_output w = (Raise (Exception e), w).
Proof.
  unfold allocated, run_immunopdb, NamedTemporaryFile. run_monad.
  destruct (truthy use_temp); [|discriminate].
  destruct (tmp_output env) as [[]|e]; [discriminate|]. eauto.
Qed.

Ltac answer_cases :=
  unfold returns;
  repeat match goal with
         | |- context [match ?x with Returns _ => _ | Raises _ => _ end] =>
             destruct x as [[]|?];
             cbn [fst snd fs next_tmp trace andb orb negb]
         end.

(** [run_immunopdb] once its output path [out] is chosen: it returns, the
    path exactly when the child exited with status zero and the log was
    kept; the child was spawned on [out]; what else happened is the output
    file, the log and the ERROR records. *)
Lemma run_immunopdb_returns env fixed use_temp log_output w :
  allocated use_temp env = true ->
  let out := immuno_output_file use_temp fixed w in
  exists t,
    run_immunopdb env fixed use_temp log_output w
    = (Ok (if exited_zero env && log_kept env log_output then Some out else None),
       World (annotate_files env use_temp out (fs w))
         (if truthy use_temp then S (next_tmp w) else next_tmp w)
         (trace w ++ Spawn ["python"; "ImmunoPDB.py"; "-i"; fixed; "-o"; out] :: t))
    /\ hydrogen_pHs t = [] /\ feature_calls t = []
    /\ logged_errors t = immuno_errors env fixed log_output.
Proof.
  unfold allocated, run_immunopdb, immuno_output_file, immuno_errors,
    stderr_logged, exited_zero, log_kept, annotate_files, child_wrote, child_ran,
    run_child, NamedTemporaryFile.
  intros Hal. cbv zeta. run_monad.
  destruct (truthy use_temp); cbn [negb orb] in Hal |- *;
    [destruct (tmp_output env) as [[]|e0]; [|discriminate]|];
    cbn [fst snd fs next_tmp trace returns andb orb negb];
    destruct (child_writes_output env), (truthy log_output),
      (subprocess_run env) as [child|e];
    cbn [fst snd fs next_tmp trace returns andb orb negb];
    try destruct (String.eqb (stderr child) ""), (returncode child =? 0)%Z;
    cbn [fst snd fs next_tmp trace returns andb orb negb];
    answer_cases;
    rewrite <- ?app_assoc, ?insert_insert_eq;
    (eexists; split; [reflexivity | repeat split]).
Qed.

(** [run_immunopdb] raises only when it cannot allocate its temporary
    output file; otherwise it returns the output path exactly when the child
    exited with status zero and the log was kept. *)
Lemma run_immunopdb_run env fixed use_temp log_output w :
  (allocated use_temp env = true /\
   exists w',
     run_immunopdb env fixed use_temp log_output w
     = (Ok (if exited_zero env && log_kept env log_output
            then Some (immuno_output_file use_temp fixed w) else None), w')
     /\ Spawn ["python"; "ImmunoPDB.py"; "-i"; fixed;
                "-o"; immuno_output_file use_temp fixed w] ∈ trace w') \/
  (allocated use_temp env = false /\
   exists e w',
     run_immunopdb env fixed use_temp log_output w = (Raise (Exception e), w')
     /\ truthy use_temp = true /\ tmp_output env = Raises e /\ w' = w).
Proof.
  destruct (allocated use_temp env) eqn:Hal; [left | right];
    (split; [reflexivity|]).
  - destruct (run_immunopdb_returns env fixed use_temp log_output w Hal)
      as (t & Hrun & _).
    eexists. split; [exact Hrun|]. cbn [trace]. set_solver.
  - destruct (run_immunopdb_raises env fixed use_temp log_output w Hal)
      as (e & Hu & He & Hrun).
    eauto 10.
Qed.

Lemma calculate_features_run env p w :
  match computed env with
  | Some m => exists w', calculate_features env p w = (Ok m, w')
  | None => exists e w', calculate_features env p w = (Raise (Exception e), w')
  end.
Proof.
  unfold calculate_features, computed. run_monad.
  destruct (patch_features env) as [m|e1]; cbn; [|eauto].
  destruct (featurizer_init env) as [[]|e2]; cbn; [|eauto].
  destruct (fv_chml env) as [v|e3]; cbn; eauto.
Qed.

(** The [finally] suite neither raises nor touches [all_results]. *)
Lemma finally_suite_run st :
  exists st', finally_suite st = (Ok tt, st') /\ all_results st' = all_results st.
Proof.
  unfold finally_suite, remove_if_present, os_path_exists, os_remove.
  cbn [for_each]. unfold get. run_monad.
  destruct (fixed_pdb_path st) as [f|], (immuno_output st) as [o|]; cbn;
    repeat match goal with
           | |- context [if ?b then _ else _] => destruct b; cbn
           end; eauto.
Qed.

Lemma try_suite_run env p use_temp pH st :
  match repeat_yield use_temp env with
  | Some m =>
      exists st', try_suite env p use_temp pH st = (Ok tt, st')
                  /\ all_results st' = all_results st ++ [m]
  | None =>
      exists r st', try_suite env p use_temp pH st = (r, st')
                    /\ (r = Ok tt \/ exists e, r = Raise (Exception e))
                    /\ all_results st' = all_results st
  end.
Proof.
  unfold repeat_yield, annotated, try_suite, assign_fixed_pdb_path,
    assign_immuno_output, all_results_append.
  run_monad.
  destruct (add_hydrogens_run env p pH (here st))
    as [[Hrep (w1 & ->)] | [Hrep (e & w1 & ->)]]; rewrite Hrep; cbn [andb];
    [|eauto 10].
  cbn [here fixed_pdb_path immuno_output all_results].
  destruct (run_immunopdb_run env (temp_name (next_tmp (here st)) ".pdb")
              use_temp (PyBool false) w1)
    as [[Hal (w2 & -> & _)] | [Hal (e & w2 & -> & _)]]; rewrite Hal; cbn [andb];
    [|eauto 10].
  set (out := immuno_output_file use_temp _ w1).
  assert (Hout : rooted out)
    by (apply immuno_output_file_rooted, temp_name_rooted).
  destruct (exited_zero env && log_kept env (PyBool false));
    cbn [here fixed_pdb_path immuno_output all_results];
    [|eauto 10].
  rewrite (rooted_truthy _ Hout).
  cbn [here fixed_pdb_path immuno_output all_results].
  pose proof (calculate_features_run env out w2) as Hcalc.
  destruct (computed env) as [m|].
  - destruct Hcalc as (w3 & Hc). rewrite Hc. cbn. eauto.
  - destruct Hcalc as (e & w3 & ->). cbn. eauto 10.
Qed.

(** One repeat never raises, and appends to [all_results] exactly what the
    repeat yields. *)
Lemma iteration_run env p use_temp pH i st :
  exists st',
    iteration env p use_temp pH i st = (Ok tt, st')
    /\ all_results st' = all_results st
                         ++ option_list (repeat_yield use_temp (env i)).
Proof.
  unfold iteration.
  pose proof (try_suite_run (env i) p use_temp pH st) as Hs.
  cbv beta iota zeta delta [try_finally try_except in_world logging_error emit
                              modify is_Exception].
  destruct (repeat_yield use_temp (env i)) as [m|].
  - destruct Hs as (st1 & -> & Hres).
    destruct (finally_suite_run st1) as (st2 & -> & Hfin).
    exists st2. split; [reflexivity|]. cbn. congruence.
  - destruct Hs as (r & st1 & -> & [-> | [e ->]] & Hres).
    + destruct (finally_suite_run st1) as (st2 & -> & Hfin).
      exists st2. split; [reflexivity|]. cbn. rewrite app_nil_r. congruence.
    + cbn [here fixed_pdb_path immuno_output all_results].
      match goal with
      | |- context [finally_suite ?s] =>
          destruct (finally_suite_run s) as (st2 & -> & Hfin)
      end.
      exists st2. split; [reflexivity|]. cbn in *. rewrite app_nil_r. congruence.
Qed.

Lemma repeats_run env p use_temp pH (l : list nat) st :
  exists st',
    for_each l (iteration env p use_temp pH) st = (Ok tt, st')
    /\ all_results st' = all_results st
                         ++ omap (fun i => repeat_yield use_temp (env i)) l.
Proof.
  revert st. induction l as [|i l IH]; intros st.
  - exists st. split; [reflexivity|]. cbn. now rewrite app_nil_r.
  - cbn [for_each]. unfold bind.
    destruct (iteration_run env p use_temp pH i st) as (st1 & -> & H1).
    destruct (IH st1) as (st2 & -> & H2).
    exists st2. split; [reflexivity|].
    rewrite H2, H1, <- app_assoc. f_equal.
    cbn [omap list_omap]. now destruct (repeat_yield use_temp (env i)).
Qed.

(** The task as a whole, for an integer [repeats]: it raises what the
    configuration reload raises; otherwise it returns the single-entry
    mapping from the file path to what the repeats yield, in order. *)
Lemma process_pdb_file_run reload env p (R : Z) use_temp pH w :
  fst (process_pdb_file reload env p (PyInt R) use_temp pH w)
  = match reload with
    | Returns _ =>
        Ok {[ p := omap (fun i => repeat_yield use_temp (env i))
                     (seq 0 (Z.to_nat R)) ]}
    | Raises e => Raise (Exception e)
    end.
Proof.
  unfold process_pdb_file, process_pdb_file_frame. run_monad.
  destruct reload as [[]|e]; [|reflexivity]. cbn [range].
  match goal with
  | |- context [for_each ?l ?body ?s] =>
      destruct (repeats_run env p use_temp pH l s) as (st' & -> & Hres)
  end.
  cbn in *. now rewrite Hres.
Qed.

(** ** The input resolver *)

Lemma is_file_not_dir fs p : is_file fs p = true -> is_dir fs p = false.
Proof. unfold is_file, is_dir. now destruct (fs !! p) as [[]|]. Qed.

Lemma child_matching_inv dir pattern q :
  child_matching dir pattern q = true ->
  exists nm, q = dir ++ [nm] /\ fnmatch pattern nm = true.
Proof.
  unfold child_matching. destruct (List.rev q) as [|nm rparent] eqn:Hrev;
    [discriminate|].
  intros [Hdir Hnm]%andb_prop. apply bool_decide_eq_true in Hdir.
  exists nm. split; [|exact Hnm].
  rewrite <- (List.rev_involutive q), Hrev. cbn [List.rev]. now rewrite Hdir.
Qed.

(** A directory none of whose entries has a matching name globs to nothing. *)
Lemma glob_no_match (fs : filesystem) dir pattern :
  (forall nm, is_Some (fs !! (dir ++ [nm])) -> fnmatch pattern nm = false) ->
  glob fs dir pattern = [].
Proof.
  intros Hnone. unfold glob.
  destruct (List.filter _ _) as [|q l] eqn:Hf; [reflexivity|].
  assert (Hin : In q (List.filter (child_matching dir pattern)
                        (map fst (map_to_list fs))))
    by (rewrite Hf; now left).
  apply List.filter_In in Hin as [Hq Hm].
  apply child_matching_inv in Hm as (nm & -> & Hnm).
  apply List.in_map_iff in Hq as ([k v] & Hk & Hkv). cbn in Hk. subst k.
  apply list_elem_of_In, elem_of_map_to_list in Hkv.
  rewrite Hnone in Hnm by (now exists v). discriminate.
Qed.

(** ** Collecting results *)

Lemma map_answer_cases {A B} (f : A -> answer B) (l : list A) :
  (exists ys, map_answer f l = Returns ys
              /\ Forall2 (fun x y => f x = Returns y) l ys) \/
  (exists e, map_answer f l = Raises e
             /\ Exists (fun x => exists e', f x = Raises e') l).
Proof.
  induction l as [|x l IH]; cbn [map_answer].
  - left. exists []. split; [reflexivity | constructor].
  - destruct (f x) as [y|e] eqn:Hx.
    + destruct IH as [(ys & -> & Hall) | (e & -> & Hex)].
      * left. exists (y :: ys). split; [reflexivity | now constructor].
      * right. exists e. split; [reflexivity | now apply Exists_cons_tl].
    + right. exists e. split; [reflexivity|]. apply Exists_cons_hd. eauto.
Qed.

Section Collect.

Variable cluster : task_call -> answer file_result.
Variable next_done : list task_call -> nat.

Lemma ray_wait_picks t ts :
  exists k c,
    (t :: ts) !! k = Some c
    /\ ray_wait next_done (t :: ts) = ([c], delete k (t :: ts)).
Proof.
  unfold ray_wait.
  set (k := next_done (t :: ts) mod length (t :: ts)).
  assert (Hk : (k < length (t :: ts))%nat)
    by (apply Nat.mod_upper_bound; discriminate).
  apply lookup_lt_is_Some_2 in Hk as [c Hc].
  exists k, c. now rewrite Hc.
Qed.

(** If every pending task returns, the loop returns all their results, in
    the order of completion. *)
Lemma wait_loop_Returns tasks ys acc :
  Forall2 (fun x y => cluster x = Returns y) tasks ys ->
  exists ys', wait_loop cluster next_done tasks acc = Returns (acc ++ ys')
              /\ ys' ≡ₚ ys.
Proof.
  remember (length tasks) as n eqn:Hn.
  revert tasks ys acc Hn.
  induction n as [n IH] using lt_wf_ind. intros tasks ys acc Hn Hall.
  destruct tasks as [|t ts].
  - apply Forall2_nil_inv_l in Hall as ->. exists [].
    simp wait_loop. now rewrite app_nil_r.
  - simp wait_loop.
    destruct (ray_wait_picks t ts) as (k & c & Hc & ->). cbn [fst snd].
    destruct (Forall2_lookup_l _ _ _ _ _ Hall Hc) as (y & Hy & Hcy).
    unfold ray_get. cbn [map_answer]. rewrite Hcy.
    assert (Hlen : (length (delete k (t :: ts)) < n)%nat).
    { rewrite length_delete by eauto. subst n. cbn [length]. lia. }
    destruct (IH _ Hlen (delete k (t :: ts)) (delete k ys) (acc ++ [y]) eq_refl)
      as (ys' & -> & Hperm); [now apply Forall2_delete|].
    exists (y :: ys'). split.
    + now rewrite <- app_assoc.
    + rewrite Hperm. symmetry. now apply delete_Permutation.
Qed.

(** If some pending task raises, the loop raises. *)
Lemma wait_loop_Raises tasks acc :
  Exists (fun x => exists e, cluster x = Raises e) tasks ->
  exists e, wait_loop cluster next_done tasks acc = Raises e.
Proof.
  remember (length tasks) as n eqn:Hn.
  revert tasks acc Hn.
  induction n as [n IH] using lt_wf_ind. intros tasks acc Hn Hex.
  destruct tasks as [|t ts]; [now apply Exists_nil in Hex|].
  simp wait_loop.
  destruct (ray_wait_picks t ts) as (k & c & Hc & ->). cbn [fst snd].
  unfold ray_get. cbn [map_answer].
  destruct (cluster c) as [y|e] eqn:Hcy; [|eauto].
  assert (Hlen : (length (delete k (t :: ts)) < n)%nat).
  { rewrite length_delete by eauto. subst n. cbn [length]. lia. }
  apply (IH _ Hlen); [reflexivity|].
  apply Exists_exists in Hex as (x & Hx & e & Hxe).
  apply Exists_exists. exists x. split; [|eauto].
  rewrite (delete_Permutation _ _ _ Hc) in Hx.
  apply elem_of_cons in Hx as [-> | Hx]; [congruence | exact Hx].
Qed.

(** The two collection modes agree: both return, with the same results up
    to order, or both raise. *)
Lemma collect_modes_agree tasks :
  (exists rs rs', collect cluster next_done false tasks = Returns rs
                  /\ collect cluster next_done true tasks = Returns rs'
                  /\ rs ≡ₚ rs') \/
  (exists e e', collect cluster next_done false tasks = Raises e
                /\ collect cluster next_done true tasks = Raises e').
Proof.
  unfold collect, ray_get.
  destruct (map_answer_cases cluster tasks) as [(ys & -> & Hall) | (e & -> & Hex)].
  - destruct (wait_loop_Returns tasks ys [] Hall) as (ys' & -> & Hperm).
    left. exists ys, ys'. now rewrite app_nil_l.
  - destruct (wait_loop_Raises tasks [] Hex) as (e' & ->).
    right. eauto.
Qed.

End Collect.

(** ** What the orchestrator does *)

Lemma remote_run repeats pH pdb d :
  remote (str pdb) [PyInt repeats; PyFloat pH] d
  = (Ok (submission repeats pH pdb),
     Driver (host d) (submitted d ++ [submission repeats pH pdb])).
Proof. reflexivity. Qed.

Lemma comprehension_remote repeats pH (files : list path) d :
  comprehension (fun pdb => remote (str pdb) [PyInt repeats; PyFloat pH]) files d
  = (Ok (map (submission repeats pH) files),
     Driver (host d) (submitted d ++ map (submission repeats pH) files)).
Proof.
  revert d. induction files as [|pdb files IH]; intros d.
  - cbn. rewrite app_nil_r. now destruct d.
  - cbn [comprehension map].
    cbv beta iota zeta delta [mbind mret M_bind M_ret bind ret].
    rewrite remote_run, IH. cbn [host submitted]. now rewrite <- app_assoc.
Qed.

Lemma get_pdb_files_world input w : snd (get_pdb_files input w) = w.
Proof.
  unfold get_pdb_files.
  destruct (is_dir (fs w) (Path input)); [reflexivity|].
  now destruct (is_file (fs w) (Path input) && String.eqb (suffix (Path input)) ".pdb").
Qed.

(** Every outcome of [run_processing], from what the resolver, the cluster
    and the writing of the output file answer. *)
Lemma run_processing_run cluster next_done output input repeats pH use_ray_wait
    out d :
  run_processing cluster next_done output input repeats pH use_ray_wait out d
  = match fst (get_pdb_files input (host d)) with
    | Raise e => (Raise e, d)
    | Ok files =>
        let tasks := map (submission repeats pH) files in
        match collect cluster next_done use_ray_wait tasks with
        | Returns results =>
            match output with
            | Written =>
                (Ok tt, Driver (finished (host d) out results)
                          (submitted d ++ tasks))
            | OpenRaises _ =>
                (Raise (SystemExit 1), Driver (failed (host d))
                                         (submitted d ++ tasks))
            | DumpRaises _ =>
                (Raise (SystemExit 1), Driver (failed (truncated (host d) out))
                                         (submitted d ++ tasks))
            end
        | Raises _ =>
            (Raise (SystemExit 1), Driver (failed (host d)) (submitted d ++ tasks))
        end
    end.
Proof.
  unfold run_processing, collect, on_host, json_dump, finished, failed, truncated.
  cbv beta iota zeta delta [mbind M_bind bind].
  pose proof (get_pdb_files_world input (host d)) as Hw.
  destruct (get_pdb_files input (host d)) as [[files|e] w]; cbn [fst snd] in *;
    subst w; [|now destruct d].
  rewrite comprehension_remote. run_monad. cbn [host submitted].
  assert (Happ : forall (t : list event) a b, (t ++ [a]) ++ [b] = t ++ [a; b])
    by (intros; now rewrite <- app_assoc).
  destruct use_ray_wait.
  - destruct (wait_loop _ _ _ _) as [rs|e]; cbn [fs next_tmp trace host submitted];
      [destruct output|]; cbn [fs next_tmp trace host submitted];
      now rewrite ?Happ.
  - destruct (ray_get _ _) as [rs|e]; cbn [fs next_tmp trace host submitted];
      [destruct output|]; cbn [fs next_tmp trace host submitted];
      now rewrite ?Happ.
Qed.

(** On the cluster of workers, a call the orchestrator submitted returns
    unless the task's configuration reload raises. *)
Lemma run_call_submission reload env w repeats pH pdb :
  run_call reload env w (submission repeats pH pdb)
  = match reload (str pdb) with
    | Returns _ => Returns (task_value env repeats pH pdb)
    | Raises _ => Raises RayTaskError
    end.
Proof.
  unfold run_call, worker, submission, task_value.
  cbn [call_pdb_file_path call_repeats call_use_temp call_pH].
  rewrite process_pdb_file_run. now destruct (reload (str pdb)).
Qed.

(** ** Temporary files *)

(** A repair that fails at its first library call leaves the temporary file
    that [add_hydrogens] had allocated, in every world and for any
    arguments: the name never reaches [fixed_pdb_path]. *)
Lemma failed_repair_leaves_temp_file env p use_temp pH w e :
  tmp_fixed (env 0%nat) = Returns tt ->
  fixer_load (env 0%nat) = Raises e ->
  fs (snd (process_pdb_file (Returns tt) env p (PyInt 1) use_temp pH w))
    !! Path (temp_name (next_tmp w) ".pdb") = Some (File Raw).
Proof.
  intros Htmp Hload.
  unfold process_pdb_file, process_pdb_file_frame. run_monad. cbn [range].
  change (Z.to_nat 1) with 1%nat. cbn [seq for_each].
  unfold iteration, try_suite, add_hydrogens, NamedTemporaryFile, finally_suite.
  run_monad. cbn [here fixed_pdb_path immuno_output all_results fs next_tmp trace].
  rewrite Htmp. cbv beta iota.
  cbn [here fixed_pdb_path immuno_output all_results fs next_tmp trace].
  rewrite Hload.
  cbn [for_each remove_if_present].
  run_monad. cbn [here fixed_pdb_path immuno_output all_results fs next_tmp trace snd].
  apply lookup_insert_eq.
Qed.

(** * The claims *)

(** ** The input resolver (C5, C6, C10) *)

(** C6. For a path that is an existing file whose suffix is [.pdb], the
    resolver returns the one-element list holding the [Path] built from the
    argument, and changes nothing. *)
Theorem get_pdb_files_single_file input w :
  is_file (fs w) (Path input) = true ->
  suffix (Path input) = ".pdb" ->
  get_pdb_files input w = (Ok [Path input], w).
Proof.
  intros Hfile Hsuf. unfold get_pdb_files.
  rewrite (is_file_not_dir _ _ Hfile), Hfile, Hsuf. reflexivity.
Qed.

Lemma get_pdb_files_single_file_witness :
  get_pdb_files "data/a.pdb" Sample.start = (Ok [["data"; "a.pdb"]], Sample.start).
Proof.
  apply (get_pdb_files_single_file "data/a.pdb" Sample.start);
    vm_compute; reflexivity.
Defined.

(** C5. For a path that is neither a directory nor a file with the [.pdb]
    suffix, the resolver raises the invalid-input [ValueError], and
    [run_processing] ends with that exception in the state it started in:
    no task has been submitted. *)
Theorem invalid_input_raises_and_submits_nothing
    cluster next_done output input repeats pH use_ray_wait out d :
  is_dir (fs (host d)) (Path input) = false ->
  is_file (fs (host d)) (Path input) && String.eqb (suffix (Path input)) ".pdb" = false ->
  fst (get_pdb_files input (host d)) = Raise invalid_input
  /\ run_processing cluster next_done output input repeats pH use_ray_wait out d
     = (Raise invalid_input, d)
  /\ submitted (snd (run_processing cluster next_done output input repeats pH
                       use_ray_wait out d)) = submitted d.
Proof.
  intros Hdir Hfile.
  assert (Hget : fst (get_pdb_files input (host d)) = Raise invalid_input)
    by (unfold get_pdb_files; now rewrite Hdir, Hfile).
  rewrite run_processing_run, Hget. auto.
Qed.

Lemma invalid_input_raises_and_submits_nothing_witness :
  run_processing
    (run_call (fun _ => Sample.config_found) (fun _ _ => Sample.all_well)
       Sample.start)
    (fun _ => 0%nat) Written
    "data/notes.txt" 2 7.0 false "out.json" (fresh_driver Sample.start)
  = (Raise invalid_input, fresh_driver Sample.start).
Proof.
  apply (invalid_input_raises_and_submits_nothing
           (run_call (fun _ => Sample.config_found) (fun _ _ => Sample.all_well)
              Sample.start)
           (fun _ => 0%nat) Written
           "data/notes.txt" 2 7.0 false "out.json" (fresh_driver Sample.start));
    vm_compute; reflexivity.
Defined.

(** C10, as stated, fails in two ways.  A directory that holds no file
    matching [*.pdb] but a sub-directory with such a name is not resolved to
    the empty list: the sub-directory is returned, a task is submitted for
    it and the array written is not empty.  And for a directory that
    resolves to the empty list, a run whose output file cannot be opened
    ends with exit status 1 and writes nothing. *)
Lemma empty_directory_claim_counterexample :
  let cluster := run_call (fun _ => Sample.config_found)
                   (fun _ _ => Sample.all_well) Sample.start in
  let nested := run_processing cluster (fun _ => 0%nat) Written
                  "nested" 1 7.0 false "out.json" (fresh_driver Sample.start) in
  let unwritable := run_processing cluster (fun _ => 0%nat)
                      (OpenRaises (OSError "out.json: permission denied"))
                      "empty" 1 7.0 false "out.json" (fresh_driver Sample.start) in
  (is_dir Sample.disk (Path "nested") = true
   /\ matching_files Sample.disk (Path "nested") "*.pdb" = []
   /\ fst (get_pdb_files "nested" Sample.start) = Ok [["nested"; "sub.pdb"]]
   /\ submitted (snd nested)
      = [TaskCall "nested/sub.pdb" (PyInt 1) (PyFloat 7.0) (PyFloat 7.0)]
   /\ written (host (snd nested)) "out.json"
      <> Some (JArray []))
  /\ (fst (get_pdb_files "empty" Sample.start) = Ok []
      /\ exit_code (fst unwritable) = 1%Z
      /\ written (host (snd unwritable)) "out.json" = None).
Proof.
  cbv zeta. repeat split; try (vm_compute; reflexivity).
  vm_compute. discriminate.
Qed.

(** C10, amended. For an existing directory none of whose entries, of any
    kind, has a name matching [*.pdb], the resolver returns the empty list
    without raising and the orchestrator, in either collection mode, submits
    no task; if the output file can be opened and written, it then holds the
    empty JSON array and the exit status is 0; if not, the exit status is
    1. *)
Theorem empty_directory_writes_empty_array
    cluster next_done output input repeats pH use_ray_wait out w :
  is_dir (fs w) (Path input) = true ->
  (forall nm, is_Some (fs w !! (Path input ++ [nm])) -> fnmatch "*.pdb" nm = false) ->
  get_pdb_files input w = (Ok [], w)
  /\ exists r d',
       run_processing cluster next_done output input repeats pH use_ray_wait out
         (fresh_driver w) = (r, d')
       /\ submitted d' = []
       /\ match output with
          | Written =>
              r = Ok tt /\ exit_code r = 0%Z
              /\ written (host d') out = Some (JArray [])
          | _ => r = Raise (SystemExit 1) /\ exit_code r = 1%Z
          end.
Proof.
  intros Hdir Hnone.
  assert (Hget : get_pdb_files input w = (Ok [], w))
    by (unfold get_pdb_files; now rewrite Hdir, (glob_no_match _ _ _ Hnone)).
  split; [exact Hget|].
  rewrite run_processing_run. cbn [host fresh_driver]. rewrite Hget.
  cbn [fst map].
  assert (Hcollect : collect cluster next_done use_ray_wait [] = Returns []).
  { unfold collect. destruct use_ray_wait; [now simp wait_loop | reflexivity]. }
  rewrite Hcollect.
  destruct output; eexists _, _; (split; [reflexivity|]);
    (split; [reflexivity|]); repeat split.
  unfold written, finished. cbn [host fs]. now rewrite lookup_insert_eq.
Qed.

Lemma empty_directory_writes_empty_array_witness :
  get_pdb_files "empty" Sample.start = (Ok [], Sample.start)
  /\ exists r d',
       run_processing
         (run_call (fun _ => Sample.config_found) (fun _ _ => Sample.all_well)
            Sample.start)
         (fun _ => 0%nat) Written "empty" 2 7.0 true "out.json"
         (fresh_driver Sample.start)
       = (r, d')
       /\ submitted d' = []
       /\ (r = Ok tt /\ exit_code r = 0%Z
           /\ written (host d') "out.json" = Some (JArray [])).
Proof.
  apply (empty_directory_writes_empty_array
           (run_call (fun _ => Sample.config_found) (fun _ _ => Sample.all_well)
              Sample.start)
           (fun _ => 0%nat) Written "empty" 2 7.0 true "out.json" Sample.start).
  - vm_compute. reflexivity.
  - intros nm [v Hv]. apply elem_of_list_to_map_2 in Hv.
    repeat (apply elem_of_cons in Hv as [Hv | Hv];
            [inversion Hv; subst; try reflexivity|]).
    now apply elem_of_nil in Hv.
Defined.

(** ** The annotator invoker (C3) *)

(** C3, as stated, fails in two ways.  A child that exits with status zero
    does not give the output path when [immunopdb.log] cannot be opened, or
    when what was written to it cannot be flushed: the handler turns that
    exception into [None].  And with [use_temp] true, a failure to allocate
    the temporary output file, which happens before the [try], is raised to
    the caller. *)
Lemma run_immunopdb_claim_counterexample :
  (exited_zero Sample.log_unwritable = true
   /\ fst (run_immunopdb Sample.log_unwritable "/tmp/tmp0.pdb" (PyBool false)
             (PyBool false) Sample.start) = Ok None)
  /\ (exited_zero Sample.log_full = true
      /\ fst (run_immunopdb Sample.log_full "/tmp/tmp0.pdb" (PyBool false)
                (PyBool false) Sample.start) = Ok None)
  /\ fst (run_immunopdb Sample.no_temp_output "/tmp/tmp0.pdb" (PyBool true)
            (PyBool false) Sample.start)
     = Raise (Exception (OSError "no usable temporary directory")).
Proof. repeat split; vm_compute; reflexivity. Qed.

(** C3, amended. [run_immunopdb] raises to its caller only what the
    allocation of its temporary output file raises, which it attempts only
    when [use_temp] is true.  Otherwise it returns: the output path (the one
    it passed to the child after [-o]) when [subprocess.run] returned a
    child that exited with status zero and the log was kept (opened, written
    and closed without an exception); [None] when the child exited with
    another status, when [subprocess.run] raised, or when opening, writing
    or closing the log raised. *)
Theorem run_immunopdb_outcome env fixed_pdb_path use_temp log_output w :
  exists output_path,
    fst (run_immunopdb env fixed_pdb_path use_temp log_output w)
    = match (if truthy use_temp then tmp_output env else Returns tt) with
      | Raises e => Raise (Exception e)
      | Returns _ =>
          Ok (match subprocess_run env with
              | Returns child =>
                  if (returncode child =? 0)%Z && log_kept env log_output
                  then Some output_path else None
              | Raises _ => None
              end)
      end
    /\ (allocated use_temp env = true ->
        Spawn ["python"; "ImmunoPDB.py"; "-i"; fixed_pdb_path; "-o"; output_path]
          ∈ trace (snd (run_immunopdb env fixed_pdb_path use_temp log_output w))).
Proof.
  exists (immuno_output_file use_temp fixed_pdb_path w).
  destruct (run_immunopdb_run env fixed_pdb_path use_temp log_output w)
    as [[Hal (w' & -> & Hspawn)] | [Hal (e & w' & -> & Hu & He & _)]].
  - split; [|intros _; exact Hspawn].
    unfold allocated in Hal. unfold exited_zero. cbn [fst].
    assert (Hpast : (if truthy use_temp then tmp_output env else Returns tt)
                    = Returns tt).
    { destruct (truthy use_temp); [|reflexivity]. cbn [negb orb] in Hal.
      now destruct (tmp_output env) as [[]|e0]. }
    rewrite Hpast. now destruct (subprocess_run env) as [child|e].
  - split; [|congruence]. now rewrite Hu, He.
Qed.

(** ** The per-file task (C4, C7, C8) *)

Lemma omap_all_None {A B} (f : A -> option B) (l : list A) :
  (forall x, x ∈ l -> f x = None) -> omap f l = [].
Proof.
  induction l as [|x l IH]; intros Hl; [reflexivity|].
  cbn [omap list_omap]. rewrite (Hl x) by (now left).
  apply IH. intros y Hy. apply Hl. now right.
Qed.



Lemma repeat_yield_failed use_temp env :
  repaired env = false \/ computed env = None -> repeat_yield use_temp env = None.
Proof.
  unfold repeat_yield. intros [-> | ->]; [reflexivity|].
  now destruct (repaired env && annotated use_temp env).
Qed.

(** C4, as stated, fails: when the configuration reload at the start of the
    task raises, that exception escapes the task, although the annotator
    would return [None] on every repeat. *)
Lemma annotator_always_fails_claim_counterexample :
  (forall i fixed w', (i < 2)%nat ->
     fst (run_immunopdb Sample.annotator_fails fixed (PyFloat 7.0) (PyBool false) w')
     = Ok None)
  /\ fst (process_pdb_file Sample.config_missing (fun _ => Sample.annotator_fails)
            "data/a.pdb" (PyInt 2) (PyFloat 7.0) (PyFloat 7.0) Sample.start)
     = Raise (Exception (OSError "../default_config.json: no such file")).
Proof. split; [intros i fixed w' _; reflexivity | vm_compute; reflexivity]. Qed.

(** C4, amended. If the configuration reload at the start of the task
    succeeds and the annotator invoker returns [None] on every repeat, the
    task returns, without raising, the mapping from the file path to the
    empty list. *)
Theorem annotator_always_fails_gives_empty_list
    reload env p (R : Z) use_temp pH w :
  returns reload = true ->
  (forall i fixed w', (i < Z.to_nat R)%nat ->
     fst (run_immunopdb (env i) fixed use_temp (PyBool false) w') = Ok None) ->
  fst (process_pdb_file reload env p (PyInt R) use_temp pH w) = Ok {[ p := [] ]}.
Proof.
  intros Hreload Hnone. rewrite process_pdb_file_run.
  destruct reload as [[]|e]; [|discriminate].
  rewrite omap_all_None; [reflexivity|].
  intros i Hi. apply elem_of_seq in Hi as [_ Hi]. cbn in Hi.
  specialize (Hnone i "" w Hi).
  unfold repeat_yield, annotated.
  destruct (run_immunopdb_run (env i) "" use_temp (PyBool false) w)
    as [[Hal (w' & Hrun & _)] | [Hal (e & w' & Hrun & _)]];
    rewrite Hrun in Hnone; cbn [fst] in Hnone; rewrite Hal;
    [|now rewrite andb_false_r].
  destruct (exited_zero (env i) && log_kept (env i) (PyBool false)) eqn:Hran;
    [discriminate|].
  cbn [andb]. rewrite Hran. now rewrite andb_false_r.
Qed.

Lemma annotator_always_fails_gives_empty_list_witness :
  fst (process_pdb_file Sample.config_found (fun _ => Sample.annotator_fails)
         "data/a.pdb" (PyInt 3) (PyFloat 7.0) (PyFloat 7.0) Sample.start)
  = Ok {[ "data/a.pdb" := [] ]}.
Proof.
  apply (annotator_always_fails_gives_empty_list
           Sample.config_found (fun _ => Sample.annotator_fails) "data/a.pdb" 3
           (PyFloat 7.0) (PyFloat 7.0) Sample.start).
  - reflexivity.
  - intros i fixed w' _. reflexivity.
Defined.




Lemma submissions_return reload env w repeats pH (files : list path) :
  (forall pdb, pdb ∈ files -> returns (reload (str pdb)) = true) ->
  Forall2 (fun c y => run_call reload env w c = Returns y)
    (map (submission repeats pH) files) (map (task_value env repeats pH) files).
Proof.
  induction files as [|pdb files IH]; intros Hall; cbn [map]; constructor.
  - rewrite run_call_submission.
    specialize (Hall pdb ltac:(now left)). now destruct (reload (str pdb)).
  - apply IH. intros q Hq. apply Hall. now right.
Qed.

Lemma ray_get_returns {A B} (f : A -> answer B) (l : list A) (ys : list B) :
  Forall2 (fun x y => f x = Returns y) l ys -> map_answer f l = Returns ys.
Proof.
  induction 1 as [|x y l ys Hx _ IH]; [reflexivity|].
  cbn [map_answer]. now rewrite Hx, IH.
Qed.

(** When the configuration reload of every file's task returns, collecting
    the tasks returns one result per file, whatever else the collaborators
    answer. *)
Lemma collect_submissions reload env w next_done use_ray_wait repeats pH
    (files : list path) :
  (forall pdb, pdb ∈ files -> returns (reload (str pdb)) = true) ->
  exists rs,
    collect (run_call reload env w) next_done use_ray_wait
      (map (submission repeats pH) files) = Returns rs
    /\ rs ≡ₚ map (task_value env repeats pH) files
    /\ (use_ray_wait = false -> rs = map (task_value env repeats pH) files).
Proof.
  intros Hreload.
  pose proof (submissions_return reload env w repeats pH files Hreload) as Hall.
  unfold collect. destruct use_ray_wait.
  - destruct (wait_loop_Returns (run_call reload env w) next_done _ _ [] Hall)
      as (rs & -> & Hperm).
    exists rs. rewrite app_nil_l. repeat split; [exact Hperm | discriminate].
  - exists (map (task_value env repeats pH) files).
    unfold ray_get. now rewrite (ray_get_returns _ _ _ Hall).
Qed.

(** C8. If the repair step or the feature computation raises during repeat
    [i], then: the body of that repeat ends without raising and leaves the
    result list as it was; the loop over the repeats runs to its end and
    appends, in order, what the other repeats yield, so that the task, which
    reaches its repeats only when its configuration reload returned, returns
    them; and the tasks of the other files are not affected: the task of
    each file returns what its own repeats yield unless its own reload
    raises, and when every reload returns, collecting the tasks returns one
    result per file. *)
Theorem failed_repeat_is_skipped
    (reload : string -> answer unit) (env : string -> nat -> repeat_env)
    p (R : Z) use_temp pH w (i : nat) :
  (i < Z.to_nat R)%nat ->
  repaired (env p i) = false \/ computed (env p i) = None ->
  let others :=
    omap (fun j => repeat_yield use_temp (env p j)) (seq 0 i)
    ++ omap (fun j => repeat_yield use_temp (env p j))
         (seq (S i) (Z.to_nat R - S i)) in
  (forall st, exists st',
      iteration (env p) p use_temp pH i st = (Ok tt, st')
      /\ all_results st' = all_results st)
  /\ (forall st, exists st',
        for_each (seq 0 (Z.to_nat R)) (iteration (env p) p use_temp pH) st
        = (Ok tt, st')
        /\ all_results st' = all_results st ++ others)
  /\ fst (process_pdb_file (reload p) (env p) p (PyInt R) use_temp pH w)
     = match reload p with
       | Returns _ => Ok {[ p := others ]}
       | Raises e => Raise (Exception e)
       end
  /\ (forall repeats cli_pH (pdb : path),
        run_call reload env w (submission repeats cli_pH pdb)
        = match reload (str pdb) with
          | Returns _ => Returns (task_value env repeats cli_pH pdb)
          | Raises _ => Raises RayTaskError
          end)
  /\ (forall next_done use_ray_wait repeats cli_pH (files : list path),
        (forall pdb, pdb ∈ files -> returns (reload (str pdb)) = true) ->
        exists rs,
          collect (run_call reload env w) next_done use_ray_wait
            (map (submission repeats cli_pH) files) = Returns rs
          /\ rs ≡ₚ map (task_value env repeats cli_pH) files).
Proof.
  intros Hi Hfail others. apply (repeat_yield_failed use_temp) in Hfail.
  assert (Hothers : omap (fun j => repeat_yield use_temp (env p j))
                      (seq 0 (Z.to_nat R)) = others).
  { unfold others.
    replace (Z.to_nat R) with (i + S (Z.to_nat R - S i))%nat at 1 by lia.
    rewrite seq_app, omap_app. cbn [seq omap list_omap Nat.add].
    now rewrite Hfail. }
  split; [|split; [|split; [|split]]].
  - intros st.
    destruct (iteration_run (env p) p use_temp pH i st) as (st' & Hrun & Hres).
    exists st'. split; [exact Hrun|].
    rewrite Hres, Hfail. cbn [option_list]. apply app_nil_r.
  - intros st.
    destruct (repeats_run (env p) p use_temp pH (seq 0 (Z.to_nat R)) st)
      as (st' & Hrun & Hres).
    exists st'. split; [exact Hrun|]. now rewrite Hres, Hothers.
  - now rewrite process_pdb_file_run, Hothers.
  - intros repeats cli_pH pdb. apply run_call_submission.
  - intros next_done use_ray_wait repeats cli_pH files Hreload.
    destruct (collect_submissions reload env w next_done use_ray_wait repeats
                cli_pH files Hreload) as (rs & Hrs & Hperm & _).
    eauto.
Qed.

Lemma failed_repeat_is_skipped_witness :
  fst (process_pdb_file Sample.config_found
         (Sample.second_repeat_fails "data/a.pdb") "data/a.pdb"
         (PyInt 3) (PyFloat 7.0) (PyFloat 7.0) Sample.start)
  = Ok {[ "data/a.pdb" :=
            [ <["charge_asym" := 0.25%float]> Sample.some_features;
              <["charge_asym" := 0.25%float]> Sample.some_features ] ]}.
Proof.
  apply (failed_repeat_is_skipped (fun _ => Sample.config_found)
           Sample.second_repeat_fails "data/a.pdb" 3
           (PyFloat 7.0) (PyFloat 7.0) Sample.start 1).
  - vm_compute. lia.
  - left. reflexivity.
Defined.

(** ** The two collection modes (C9) *)

(** C9. For every input, every answer of the cluster to each task, every
    order in which [ray.wait] reports the tasks and every answer to the
    writing of the output file, the two collection modes end alike.  Either
    both complete, having submitted the same tasks: then the result lists
    are permutations of each other, and so are the arrays written to the
    output file.  Or both end with the same exception, in the same state;
    then no entry but the output file differs from before, and that one only
    if it was opened and the writing of the document failed. *)
Theorem collection_modes_agree cluster next_done output input repeats pH out d :
  match run_processing cluster next_done output input repeats pH false out d,
        run_processing cluster next_done output input repeats pH true out d with
  | (Ok _, d_get), (Ok _, d_wait) =>
      submitted d_get = submitted d_wait
      /\ exists tasks rs_get rs_wait,
           collect cluster next_done false tasks = Returns rs_get
           /\ collect cluster next_done true tasks = Returns rs_wait
           /\ rs_get ≡ₚ rs_wait
           /\ written (host d_get) out = Some (JArray (map file_result_json rs_get))
           /\ written (host d_wait) out = Some (JArray (map file_result_json rs_wait))
           /\ map file_result_json rs_get ≡ₚ map file_result_json rs_wait
  | (Raise e_get, d_get), (Raise e_wait, d_wait) =>
      e_get = e_wait /\ d_get = d_wait
      /\ (forall q, q <> Path out -> fs (host d_get) !! q = fs (host d) !! q)
      /\ ((forall e, output <> DumpRaises e) -> fs (host d_get) = fs (host d))
  | _, _ => False
  end.
Proof.
  rewrite !run_processing_run.
  destruct (fst (get_pdb_files input (host d))) as [files|e]; [|auto].
  cbn zeta. set (tasks := map (submission repeats pH) files).
  destruct (collect_modes_agree cluster next_done tasks)
    as [(rs & rs' & Hget & Hwait & Hperm) | (e & e' & -> & ->)].
  - rewrite Hget, Hwait. destruct output as [|e|e].
    + split; [reflexivity|]. exists tasks, rs, rs'.
      split; [exact Hget|]. split; [exact Hwait|]. split; [exact Hperm|].
      unfold written, finished. cbn [host fs]. rewrite !lookup_insert_eq.
      split; [reflexivity|]. split; [reflexivity|].
      now apply Permutation_map.
    + auto.
    + repeat split.
      * intros q Hq. cbn [host failed truncated fs].
        now rewrite lookup_insert_ne by congruence.
      * intros Hno. now destruct (Hno e).
  - auto.
Qed.

(** ** Where the code departs from the claims (C1, C2) *)

Lemma PyFloat_5_is_not_7 : PyFloat 5.0 <> PyFloat 7.0.
Proof.
  intros H.
  apply (f_equal (fun v => match v with
                           | PyFloat f => PrimFloat.eqb f 7.0
                           | _ => false
                           end)) in H.
  vm_compute in H. discriminate.
Qed.

(** Whatever pH the command line gives, every call the orchestrator submits
    carries it as [use_temp] and carries 7.0 as [pH]. *)
Lemma submitted_calls_ignore_cli_pH cluster next_done output (args : cli) w :
  Forall (fun c => call_use_temp c = PyFloat (cli_pH args)
                   /\ call_pH c = PyFloat 7.0)
    (submitted (snd (main cluster next_done output args (fresh_driver w)))).
Proof.
  unfold main. rewrite run_processing_run. cbn [host fresh_driver submitted].
  destruct (fst (get_pdb_files _ _)) as [files|e]; [|constructor].
  cbn zeta.
  assert (Hall : Forall (fun c => call_use_temp c = PyFloat (cli_pH args)
                                  /\ call_pH c = PyFloat 7.0)
                   (map (submission (cli_repeats args) (cli_pH args)) files))
    by (apply Forall_forall; intros c [pdb [-> _]]%list_elem_of_fmap; now split).
  destruct (collect _ _ _ _); [now destruct output|exact Hall].
Qed.

(** C1 (the code departs from it). Run with [--pH 5.0] on one structure
    file, the orchestrator submits a single call in which 5.0 is bound to
    [use_temp] and [pH] is the default 7.0; the worker running that call
    adds hydrogens at pH 7.0, not at 5.0. *)
Theorem cli_pH_is_bound_to_use_temp :
  let args := Cli "data/a.pdb" 1 false "out.json" 5.0 in
  let reload := fun _ : string => Sample.config_found in
  let cluster := run_call reload (fun _ _ => Sample.all_well) Sample.start in
  let calls := submitted (snd (main cluster (fun _ => 0%nat) Written args
                                 (fresh_driver Sample.start))) in
  calls = [TaskCall "data/a.pdb" (PyInt 1) (PyFloat 5.0) (PyFloat 7.0)]
  /\ map (fun c => hydrogen_pHs
                     (trace (snd (worker reload (fun _ _ => Sample.all_well)
                                    Sample.start c)))) calls
     = [[PyFloat 7.0]]
  /\ PyFloat (cli_pH args) <> PyFloat 7.0.
Proof.
  cbv zeta. split; [vm_compute; reflexivity|].
  split; [vm_compute; reflexivity|].
  exact PyFloat_5_is_not_7.
Qed.

(** C2 (the code departs from it). A task whose repair raises leaves the
    temporary file that [add_hydrogens] had already allocated; a task whose
    annotator fails while [use_temp] is true (as it is under the
    orchestrator) leaves the annotator's temporary output file of every
    repeat, next to the annotator's log; a task whose repeats all succeed
    leaves the annotator's log and no temporary file. *)
Theorem temporary_files_left_behind :
  new_entries Sample.start
    (snd (process_pdb_file Sample.config_found (fun _ => Sample.malformed)
            "data/a.pdb" (PyInt 1) (PyBool false) (PyFloat 7.0) Sample.start))
  = [Path "/tmp/tmp0.pdb"]
  /\ new_entries Sample.start
       (snd (process_pdb_file Sample.config_found
               (fun _ => Sample.annotator_fails) "data/a.pdb"
               (PyInt 2) (PyFloat 7.0) (PyFloat 7.0) Sample.start))
     = [Path "immunopdb.log"; Path "/tmp/tmp3_immuno_output.pdb";
        Path "/tmp/tmp1_immuno_output.pdb"]
  /\ new_entries Sample.start
       (snd (process_pdb_file Sample.config_found (fun _ => Sample.all_well)
               "data/a.pdb" (PyInt 2) (PyFloat 7.0) (PyFloat 7.0) Sample.start))
     = [Path "immunopdb.log"].
Proof. repeat split; vm_compute; reflexivity. Qed.
(** * Further properties of the code *)

(** ** Listing a directory *)

Lemma child_matching_intro dir pattern nm :
  fnmatch pattern nm = true -> child_matching dir pattern (dir ++ [nm]) = true.
Proof.
  intros Hnm. unfold child_matching.
  rewrite List.rev_app_distr. cbn [List.rev app].
  rewrite List.rev_involutive, Hnm.
  now rewrite bool_decide_eq_true_2.
Qed.

Lemma filter_NoDup {A} (f : A -> bool) (l : list A) :
  NoDup l -> NoDup (List.filter f l).
Proof.
  intros H. apply NoDup_ListNoDup, List.NoDup_filter. now apply NoDup_ListNoDup.
Qed.

Lemma elem_of_glob (fs : filesystem) dir pattern q :
  q ∈ glob fs dir pattern
  <-> exists nm, q = dir ++ [nm] /\ is_Some (fs !! q) /\ fnmatch pattern nm = true.
Proof.
  unfold glob. rewrite list_elem_of_In, List.filter_In, List.in_map_iff. split.
  - intros [([k v] & Hk & Hkv) Hm]. cbn in Hk. subst k.
    apply list_elem_of_In, elem_of_map_to_list in Hkv.
    apply child_matching_inv in Hm as (nm & -> & Hnm). eauto.
  - intros (nm & -> & [v Hv] & Hnm). split.
    + exists (dir ++ [nm], v). split; [reflexivity|].
      now apply list_elem_of_In, elem_of_map_to_list.
    + now apply child_matching_intro.
Qed.

Lemma fnmatch_char c pat d s :
  Ascii.eqb c "*" = false ->
  fnmatch (String c pat) (String d s) = Ascii.eqb c d && fnmatch pat s.
Proof. intros H. cbn [fnmatch]. now rewrite H. Qed.

(** A name matches [*.pdb] exactly when it ends in [.pdb]. *)
Lemma fnmatch_star_pdb nm :
  fnmatch "*.pdb" nm = true <-> exists stem, nm = stem +:+ ".pdb".
Proof.
  assert (Hlit : forall s, fnmatch ".pdb" s = true <-> s = ".pdb").
  { intros s. split; [|now intros ->].
    intros H.
    do 4 (destruct s as [|a s]; [discriminate H|];
          rewrite fnmatch_char in H by reflexivity;
          apply andb_prop in H as [Ha H]; apply Ascii.eqb_eq in Ha; subst a).
    destruct s; [reflexivity | discriminate H]. }
  induction nm as [|c nm IH].
  - split; [discriminate|]. intros (stem & H). now destruct stem.
  - change (fnmatch "*.pdb" (String c nm))
      with (fnmatch ".pdb" (String c nm) || fnmatch "*.pdb" nm).
    rewrite orb_true_iff, Hlit, IH. split.
    + intros [-> | (stem & ->)]; [now exists "" | now exists (String c stem)].
    + intros ([|c' stem] & H); [now left|].
      injection H as -> ->. right. eauto.
Qed.

Lemma fnmatch_star_pdb_not_root nm : fnmatch "*.pdb" nm = true -> is_root nm = false.
Proof.
  intros Hnm. unfold is_root.
  destruct (String.eqb_spec nm "/") as [->|_]; [now vm_compute in Hnm|].
  destruct (String.eqb_spec nm "//") as [->|_]; [now vm_compute in Hnm|].
  reflexivity.
Qed.

(** X1. For a directory, the resolver returns, without raising and without
    repeats, exactly the immediate entries of that directory whose name
    matches [*.pdb]; every such name ends in [.pdb], and nothing below a
    subdirectory is returned. *)
Theorem get_pdb_files_lists_directory input w :
  is_dir (fs w) (Path input) = true ->
  exists l,
    get_pdb_files input w = (Ok l, w)
    /\ NoDup l
    /\ (forall q, q ∈ l <->
          exists nm, q = Path input ++ [nm] /\ is_Some (fs w !! q)
                     /\ fnmatch "*.pdb" nm = true)
    /\ (forall q, q ∈ l -> exists stem, name q = stem +:+ ".pdb").
Proof.
  intros Hdir. exists (glob (fs w) (Path input) "*.pdb").
  split; [unfold get_pdb_files; now rewrite Hdir|].
  split; [apply filter_NoDup, NoDup_fst_map_to_list|].
  split; [intros q; apply elem_of_glob|].
  intros q (nm & -> & _ & Hnm)%elem_of_glob.
  pose proof Hnm as (stem & Hstem)%fnmatch_star_pdb.
  exists stem. unfold name. rewrite List.rev_app_distr. cbn [List.rev app].
  now rewrite (fnmatch_star_pdb_not_root _ Hnm).
Qed.

Lemma get_pdb_files_lists_directory_witness :
  exists l,
    get_pdb_files "data" Sample.start = (Ok l, Sample.start)
    /\ NoDup l
    /\ (forall q, q ∈ l <->
          exists nm, q = Path "data" ++ [nm] /\ is_Some (fs Sample.start !! q)
                     /\ fnmatch "*.pdb" nm = true)
    /\ (forall q, q ∈ l -> exists stem, name q = stem +:+ ".pdb").
Proof.
  apply (get_pdb_files_lists_directory "data" Sample.start).
  vm_compute. reflexivity.
Defined.

(** ** The fatal path of the orchestrator *)

Lemma map_answer_Raises {A B} (f : A -> answer B) (l : list A) :
  Exists (fun x => exists e, f x = Raises e) l ->
  exists e, map_answer f l = Raises e.
Proof.
  intros Hex.
  destruct (map_answer_cases f l) as [(ys & _ & Hall) | (e & He & _)]; [|eauto].
  apply Exists_exists in Hex as (x & Hx & e & Hxe).
  apply list_elem_of_lookup in Hx as [i Hi].
  destruct (Forall2_lookup_l _ _ _ _ _ Hall Hi) as (y & _ & Hy). congruence.
Qed.

Lemma collect_Raises cluster next_done use_ray_wait tasks :
  Exists (fun c => exists e, cluster c = Raises e) tasks ->
  exists e, collect cluster next_done use_ray_wait tasks = Raises e.
Proof.
  intros Hex. unfold collect. destruct use_ray_wait.
  - now apply wait_loop_Raises.
  - now apply map_answer_Raises.
Qed.

(** X2. If the input resolves and one of the submitted tasks raises, then in
    either collection mode, and whatever the writing of the output file
    would have answered, [run_processing] prints and logs the error and
    exits with status 1, after every task was submitted, and writes no
    output file: the file system is as before and the results of the tasks
    that did return are dropped. *)
Theorem run_processing_fatal cluster next_done output input repeats pH
    use_ray_wait out d (files : list path) :
  fst (get_pdb_files input (host d)) = Ok files ->
  Exists (fun c => exists e, cluster c = Raises e)
    (map (submission repeats pH) files) ->
  exists d',
    run_processing cluster next_done output input repeats pH use_ray_wait out d
    = (Raise (SystemExit 1), d')
    /\ exit_code (fst (run_processing cluster next_done output input repeats pH
                         use_ray_wait out d)) = 1%Z
    /\ submitted d' = submitted d ++ map (submission repeats pH) files
    /\ fs (host d') = fs (host d)
    /\ trace (host d') = trace (host d) ++ [Printed "ERROR"; Logged CRITICAL "ERROR"].
Proof.
  intros Hget Hex. rewrite run_processing_run, Hget. cbn zeta.
  destruct (collect_Raises cluster next_done use_ray_wait _ Hex) as (e & ->).
  eexists. split; [reflexivity|]. repeat split.
Qed.

Lemma run_processing_fatal_witness :
  exit_code (fst (run_processing (fun _ => Raises RayTaskError) (fun _ => 0%nat)
                    Written "data/a.pdb" 1 7.0 true "out.json"
                    (fresh_driver Sample.start))) = 1%Z.
Proof.
  destruct (run_processing_fatal (fun _ => Raises RayTaskError) (fun _ => 0%nat)
              Written "data/a.pdb" 1 7.0 true "out.json"
              (fresh_driver Sample.start)
              [["data"; "a.pdb"]]) as (d' & _ & Hcode & _).
  - vm_compute. reflexivity.
  - apply Exists_cons_hd. exists RayTaskError. reflexivity.
  - exact Hcode.
Defined.

(** ** The shape of the output *)

Lemma file_result_json_task_value env repeats pH pdb :
  file_result_json (task_value env repeats pH pdb) = file_object env repeats pH pdb.
Proof.
  unfold file_result_json, task_value, file_object.
  now rewrite map_to_list_singleton.
Qed.

(** X3. When the input resolves to [files], the workers run
    [process_pdb_file] and the configuration reload of every task returns:
    if the output file can be opened and written, the run ends normally with
    exit status 0 and the output file holds a JSON array with one object per
    file; each object has exactly one key, the file's path, whose value
    lists the feature objects of the repeats that yielded one; without
    [--wait] the objects are in the order the files were enumerated, with it
    they are a permutation.  If the output file cannot be opened or written,
    the run exits with status 1. *)
Theorem run_processing_output_shape reload env w next_done output input repeats pH
    use_ray_wait out d (files : list path) :
  fst (get_pdb_files input (host d)) = Ok files ->
  (forall pdb, pdb ∈ files -> returns (reload (str pdb)) = true) ->
  exists r d',
    run_processing (run_call reload env w) next_done output input repeats pH
      use_ray_wait out d = (r, d')
    /\ match output with
       | Written =>
           r = Ok tt /\ exit_code r = 0%Z
           /\ exists items,
                written (host d') out = Some (JArray items)
                /\ items ≡ₚ map (file_object env repeats pH) files
                /\ length items = length files
                /\ (use_ray_wait = false ->
                    items = map (file_object env repeats pH) files)
       | _ => r = Raise (SystemExit 1) /\ exit_code r = 1%Z
       end.
Proof.
  intros Hget Hreload.
  assert (Hobj : map file_result_json (map (task_value env repeats pH) files)
                 = map (file_object env repeats pH) files).
  { rewrite List.map_map. apply List.map_ext.
    intros; apply file_result_json_task_value. }
  destruct (collect_submissions reload env w next_done use_ray_wait repeats pH
              files Hreload) as (rs & Hrs & Hperm & Hget_order).
  rewrite run_processing_run, Hget. cbn zeta. rewrite Hrs.
  destruct output; eexists _, _; (split; [reflexivity|]); [|now split..].
  split; [reflexivity|]. split; [reflexivity|].
  assert (Hitems : map file_result_json rs ≡ₚ map (file_object env repeats pH) files)
    by (rewrite <- Hobj; now apply Permutation_map).
  exists (map file_result_json rs).
  split; [unfold written, finished; cbn [host fs]; now rewrite lookup_insert_eq|].
  split; [exact Hitems|].
  split; [rewrite (Permutation_length Hitems); apply length_map|].
  intros Hmode. now rewrite (Hget_order Hmode).
Qed.

Lemma run_processing_output_shape_witness :
  exists r d',
    run_processing
      (run_call (fun _ => Sample.config_found) Sample.second_repeat_fails
         Sample.start)
      (fun _ => 1%nat) Written "data" 2 7.0 true "out.json"
      (fresh_driver Sample.start)
    = (r, d')
    /\ (r = Ok tt /\ exit_code r = 0%Z
        /\ exists items,
             written (host d') "out.json" = Some (JArray items)
             /\ length items = 2%nat).
Proof.
  destruct (run_processing_output_shape (fun _ => Sample.config_found)
              Sample.second_repeat_fails Sample.start
              (fun _ => 1%nat) Written "data" 2 7.0 true "out.json"
              (fresh_driver Sample.start)
              (glob Sample.disk ["data"] "*.pdb"))
    as (r & d' & Hrun & Hr & Hcode & items & Hdoc & _ & Hlen & _).
  - vm_compute. reflexivity.
  - intros pdb _. reflexivity.
  - exists r, d'. split; [exact Hrun|]. split; [exact Hr|]. split; [exact Hcode|].
    exists items. split; [exact Hdoc|].
    rewrite Hlen. vm_compute. reflexivity.
Defined.

(** ** A repeat count of zero or less *)

(** X4. With a repeat count of zero or less, the task does nothing but
    reload the configuration: if the reload returns, the task returns the
    mapping from the path to the empty list; if the reload raises, the task
    raises that exception.  Either way it calls no other library, spawns no
    child and creates no file. *)
Theorem no_repeats_no_work reload env p (R : Z) use_temp pH w :
  (R <= 0)%Z ->
  process_pdb_file reload env p (PyInt R) use_temp pH w
  = (match reload with
     | Returns _ => Ok {[ p := [] ]}
     | Raises e => Raise (Exception e)
     end,
     World (fs w) (next_tmp w) (trace w ++ [ConfigReload "../default_config.json"])).
Proof.
  intros HR. unfold process_pdb_file, process_pdb_file_frame. run_monad.
  cbn [here fixed_pdb_path immuno_output all_results fs next_tmp trace fst snd].
  destruct reload as [[]|e]; cbn [range]; [|reflexivity].
  replace (Z.to_nat R) with 0%nat by lia. reflexivity.
Qed.

Lemma no_repeats_no_work_witness :
  fst (process_pdb_file Sample.config_found (fun _ => Sample.all_well) "data/a.pdb"
         (PyInt 0) (PyBool false) (PyFloat 7.0) Sample.start)
  = Ok {[ "data/a.pdb" := [] ]}.
Proof.
  rewrite (no_repeats_no_work Sample.config_found (fun _ => Sample.all_well)
             "data/a.pdb" 0 (PyBool false) (PyFloat 7.0) Sample.start);
    [reflexivity | lia].
Defined.

(** ** What one repeat does to the world *)

Lemma hydrogen_pHs_snoc t e :
  hydrogen_pHs (t ++ [e])
  = hydrogen_pHs t ++ match e with AddMissingHydrogens v => [v] | _ => [] end.
Proof. unfold hydrogen_pHs. rewrite omap_app. now destruct e. Qed.

Lemma feature_calls_snoc t e :
  feature_calls (t ++ [e])
  = feature_calls t ++ match e with PatchFeatures f => [f] | _ => [] end.
Proof. unfold feature_calls. rewrite omap_app. now destruct e. Qed.

Ltac trace_simpl :=
  cbn [fs next_tmp trace fst snd returns andb orb negb];
  repeat (rewrite hydrogen_pHs_snoc; cbn iota);
  repeat (rewrite feature_calls_snoc; cbn iota);
  rewrite ?app_nil_r.

Lemma add_hydrogens_world env p pH w :
  let w' := snd (add_hydrogens env p pH w) in
  fs w' = repair_files env (next_tmp w) (fs w)
  /\ next_tmp w' = (if returns (tmp_fixed env) then S (next_tmp w) else next_tmp w)
  /\ hydrogen_pHs (trace w')
     = hydrogen_pHs (trace w) ++ (if loads env then [pH] else [])
  /\ feature_calls (trace w') = feature_calls (trace w).
Proof.
  unfold add_hydrogens, NamedTemporaryFile, loads, repair_files. run_monad.
  destruct (tmp_fixed env) as [[]|e0]; [|now trace_simpl].
  destruct (fixer_load env) as [[]|e1]; [|now trace_simpl].
  destruct (fixer_add_hydrogens env) as [[]|e2]; [|now trace_simpl].
  destruct (open_fixed env) as [[]|e3]; [|now trace_simpl].
  destruct (pdbfile_write env) as [[]|e4]; trace_simpl;
    now rewrite insert_insert_eq.
Qed.

Lemma run_immunopdb_world env fixed use_temp log_output w :
  let w' := snd (run_immunopdb env fixed use_temp log_output w) in
  fs w' = (if allocated use_temp env
           then annotate_files env use_temp (immuno_output_file use_temp fixed w) (fs w)
           else fs w)
  /\ next_tmp w' = (if truthy use_temp && returns (tmp_output env)
                    then S (next_tmp w) else next_tmp w)
  /\ hydrogen_pHs (trace w') = hydrogen_pHs (trace w)
  /\ feature_calls (trace w') = feature_calls (trace w).
Proof.
  cbv zeta. destruct (allocated use_temp env) eqn:Hal.
  - destruct (run_immunopdb_returns env fixed use_temp log_output w Hal)
      as (t & -> & Hh & Hc & _).
    cbn [snd fs next_tmp trace].
    unfold hydrogen_pHs, feature_calls in *.
    rewrite !omap_app. cbn [omap list_omap]. rewrite Hh, Hc, !app_nil_r.
    repeat split. unfold allocated in Hal.
    destruct (truthy use_temp); cbn [negb orb andb] in *; [now rewrite Hal | reflexivity].
  - destruct (run_immunopdb_raises env fixed use_temp log_output w Hal)
      as (e & Hu & He & ->).
    cbn [snd]. rewrite Hu, He. auto.
Qed.

Lemma calculate_features_world env p w :
  let w' := snd (calculate_features env p w) in
  fs w' = fs w /\ next_tmp w' = next_tmp w
  /\ hydrogen_pHs (trace w') = hydrogen_pHs (trace w)
  /\ feature_calls (trace w') = feature_calls (trace w) ++ [p].
Proof.
  unfold calculate_features. run_monad.
  destruct (patch_features env) as [m|e1]; [|now trace_simpl].
  destruct (featurizer_init env) as [[]|e2]; [|now trace_simpl].
  destruct (fv_chml env) as [v|e3]; now trace_simpl.
Qed.

Lemma remove_if_present_world file w :
  remove_if_present file w
  = (Ok tt, World (remove_local file (fs w)) (next_tmp w) (trace w)).
Proof.
  unfold remove_if_present, remove_local, os_path_exists, os_remove. run_monad.
  destruct file as [f|]; [|now destruct w].
  destruct (truthy_str (Some f)); [|now destruct w].
  case_bool_decide as Hin; [reflexivity|].
  rewrite delete_id; [now destruct w|].
  now apply eq_None_not_Some.
Qed.

Lemma finally_suite_world st :
  finally_suite st
  = (Ok tt,
     Frame (World (remove_local (immuno_output st)
                     (remove_local (fixed_pdb_path st) (fs (here st))))
              (next_tmp (here st)) (trace (here st)))
       (fixed_pdb_path st) (immuno_output st) (all_results st)).
Proof.
  unfold finally_suite. cbn [for_each]. run_monad.
  now rewrite !remove_if_present_world.
Qed.

Lemma repaired_allocates env : repaired env = true -> returns (tmp_fixed env) = true.
Proof. unfold repaired. now destruct (returns (tmp_fixed env)). Qed.

(** The world and the locals after one repeat, from those before it. *)
Lemma iteration_world env p use_temp pH i st :
  let n := next_tmp (here st) in
  let name := temp_name n ".pdb" in
  let out := out_name use_temp n in
  exists st',
    iteration env p use_temp pH i st = (Ok tt, st')
    /\ hydrogen_pHs (trace (here st'))
       = hydrogen_pHs (trace (here st)) ++ (if loads (env i) then [pH] else [])
    /\ fixed_pdb_path st'
       = (if repaired (env i) then Some name else fixed_pdb_path st)
    /\ immuno_output st'
       = (if spawned use_temp (env i)
          then if exited_zero (env i) && log_kept (env i) (PyBool false)
               then Some out else None
          else immuno_output st)
    /\ fs (here st')
       = remove_local (immuno_output st')
           (remove_local (fixed_pdb_path st')
              (let fs1 := repair_files (env i) n (fs (here st)) in
               if spawned use_temp (env i)
               then annotate_files (env i) use_temp out fs1 else fs1))
    /\ next_tmp (here st')
       = ((if returns (tmp_fixed (env i)) then S n else n)
          + (if spawned use_temp (env i) && truthy use_temp then 1 else 0))%nat
    /\ feature_calls (trace (here st'))
       = feature_calls (trace (here st))
         ++ (if spawned use_temp (env i)
                && (exited_zero (env i) && log_kept (env i) (PyBool false))
             then [out] else []).
Proof.
  cbv zeta. unfold iteration, try_suite, assign_fixed_pdb_path,
    assign_immuno_output, all_results_append, spawned.
  cbv beta iota zeta delta
    [mbind mret M_bind M_ret bind ret modify in_world try_except try_finally
     is_Exception].
  pose proof (add_hydrogens_world (env i) p pH (here st)) as (Hfs1 & Hn1 & Hh1 & Hc1).
  destruct (add_hydrogens_run (env i) p pH (here st))
    as [[Hrep (w1 & Heq)] | [Hrep (ex & w1 & Heq)]];
    rewrite Heq in *; cbn [snd] in Hfs1, Hn1, Hh1, Hc1; rewrite Hrep; cbn [andb].
  - rewrite (repaired_allocates _ Hrep) in *.
    cbn [here fixed_pdb_path immuno_output all_results].
    pose proof (run_immunopdb_world (env i)
                  (temp_name (next_tmp (here st)) ".pdb") use_temp (PyBool false) w1)
      as (Hfs2 & Hn2 & Hh2 & Hc2).
    assert (Hout : immuno_output_file use_temp
                     (temp_name (next_tmp (here st)) ".pdb") w1
                   = out_name use_temp (next_tmp (here st)))
      by (unfold immuno_output_file, out_name; now rewrite Hn1).
    destruct (run_immunopdb_run (env i) (temp_name (next_tmp (here st)) ".pdb")
                use_temp (PyBool false) w1)
      as [[Hal (w2 & Heq2 & _)] | [Hal (e & w2 & Heq2 & Hu & He & _)]];
      rewrite Heq2 in *; cbn [snd] in Hfs2, Hn2, Hh2, Hc2; rewrite Hal in *.
    + rewrite Hout in *.
      assert (Htruthy : truthy_str (Some (out_name use_temp (next_tmp (here st)))) = true).
      { apply rooted_truthy. rewrite <- Hout.
        apply immuno_output_file_rooted, temp_name_rooted. }
      assert (Hn2' : next_tmp w2
                     = (S (next_tmp (here st)) + (if truthy use_temp then 1 else 0))%nat).
      { rewrite Hn2, Hn1. unfold allocated in Hal.
        destruct (truthy use_temp); cbn [negb orb andb] in *; [rewrite Hal|]; lia. }
      destruct (exited_zero (env i) && log_kept (env i) (PyBool false));
        cbn [here fixed_pdb_path immuno_output all_results].
      * rewrite Htruthy. cbn [here fixed_pdb_path immuno_output all_results].
        pose proof (calculate_features_world (env i)
                      (out_name use_temp (next_tmp (here st))) w2) as (Hfs3 & Hn3 & Hh3 & Hc3).
        pose proof (calculate_features_run (env i)
                      (out_name use_temp (next_tmp (here st))) w2) as Hrun3.
        destruct (computed (env i)) as [m|];
          [destruct Hrun3 as (w3 & Heq3) | destruct Hrun3 as (ex & w3 & Heq3)];
          rewrite Heq3 in *; cbn [snd] in Hfs3, Hn3, Hh3, Hc3;
          cbv beta iota zeta delta [logging_error emit modify];
          cbn [here fixed_pdb_path immuno_output all_results];
          rewrite finally_suite_world;
          cbn [here fixed_pdb_path immuno_output all_results fs next_tmp trace];
          (eexists; split; [reflexivity|]);
          cbn [here fixed_pdb_path immuno_output all_results fs next_tmp trace];
          rewrite ?hydrogen_pHs_snoc, ?feature_calls_snoc, ?app_nil_r,
            Hfs3, Hfs2, Hfs1, Hn3, Hn2', Hh3, Hh2, Hh1, Hc3, Hc2, Hc1;
          repeat split.
      * cbv beta iota zeta delta [logging_error emit modify].
        cbn [here fixed_pdb_path immuno_output all_results].
        rewrite finally_suite_world.
        cbn [here fixed_pdb_path immuno_output all_results fs next_tmp trace].
        eexists; split; [reflexivity|].
        cbn [here fixed_pdb_path immuno_output all_results fs next_tmp trace].
        rewrite ?hydrogen_pHs_snoc, ?feature_calls_snoc, ?app_nil_r,
          Hfs2, Hfs1, Hn2', Hh2, Hh1, Hc2, Hc1.
        repeat split.
    + cbv beta iota zeta delta [logging_error emit modify].
      cbn [here fixed_pdb_path immuno_output all_results].
      rewrite finally_suite_world.
      cbn [here fixed_pdb_path immuno_output all_results fs next_tmp trace].
      eexists; split; [reflexivity|].
      cbn [here fixed_pdb_path immuno_output all_results fs next_tmp trace].
      rewrite ?hydrogen_pHs_snoc, ?feature_calls_snoc, ?app_nil_r,
        Hfs2, Hfs1, Hn2, Hn1, Hh2, Hh1, Hc2, Hc1.
      unfold allocated in Hal. rewrite Hu in *. cbn [negb orb andb] in *.
      rewrite Hal. cbn [andb]. repeat split. lia.
  - cbv beta iota zeta delta [logging_error emit modify].
    cbn [here fixed_pdb_path immuno_output all_results].
    rewrite finally_suite_world.
    cbn [here fixed_pdb_path immuno_output all_results fs next_tmp trace].
    eexists; split; [reflexivity|].
    cbn [here fixed_pdb_path immuno_output all_results fs next_tmp trace].
    rewrite ?hydrogen_pHs_snoc, ?feature_calls_snoc, ?app_nil_r, Hfs1, Hn1, Hh1, Hc1.
    repeat split. lia.
Qed.

Lemma repeats_hydrogens env p use_temp pH (l : list nat) st :
  hydrogen_pHs (trace (here (snd (for_each l (iteration env p use_temp pH) st))))
  = hydrogen_pHs (trace (here st))
    ++ replicate (length (List.filter (fun i => loads (env i)) l)) pH.
Proof.
  revert st. induction l as [|i l IH]; intros st.
  - cbn. now rewrite app_nil_r.
  - cbn [for_each List.filter]. unfold bind.
    destruct (iteration_world env p use_temp pH i st) as (st1 & -> & Hh & _).
    rewrite IH, Hh, <- app_assoc. f_equal.
    now destruct (loads (env i)).
Qed.

(** ** Hydrogens are added at the task's [pH] *)

(** X5. Every [addMissingHydrogens] call of a task is made at the [pH] the
    task was called with: a task whose configuration reload raises makes
    none, and one whose reload returns makes exactly one per repeat in which
    the temporary file is allocated and PDBFixer loads the structure. *)
Theorem task_adds_hydrogens_at_its_pH reload env p (R : Z) use_temp pH w :
  hydrogen_pHs (trace (snd (process_pdb_file reload env p (PyInt R) use_temp pH w)))
  = hydrogen_pHs (trace w)
    ++ (if returns reload
        then replicate (length (List.filter (fun i => loads (env i))
                                  (seq 0 (Z.to_nat R)))) pH
        else []).
Proof.
  unfold process_pdb_file, process_pdb_file_frame. run_monad.
  cbn [here fixed_pdb_path immuno_output all_results fs next_tmp trace fst snd].
  destruct reload as [[]|e]; cbn [range returns];
    [|cbn [snd here trace]; now rewrite hydrogen_pHs_snoc].
  match goal with
  | |- context [for_each ?l ?body ?s] =>
      pose proof (repeats_hydrogens env p use_temp pH l s) as Hh;
      destruct (repeats_run env p use_temp pH l s) as (st' & Heq & _)
  end.
  rewrite Heq in *. cbn [snd here trace] in *.
  rewrite Hh, hydrogen_pHs_snoc. now rewrite app_nil_r.
Qed.

(** ** Only the temporary directory and the annotator's log are touched *)

Lemma temp_name_in_tmp n suffix : in_tmp (temp_name n suffix).
Proof. unfold temp_name. eexists. cbn. reflexivity. Qed.

Lemma out_name_in_tmp use_temp n : in_tmp (out_name use_temp n).
Proof.
  unfold out_name. destruct (truthy use_temp); [apply temp_name_in_tmp|].
  unfold temp_name, str_replace. cbn. eexists. reflexivity.
Qed.

Lemma Path_in_tmp s : in_tmp s -> tmp_path (Path s).
Proof. intros [r ->]. unfold Path, root. cbn. eexists. reflexivity. Qed.

Lemma log_not_in_tmp : ~ tmp_path immunopdb_log.
Proof. intros [rest H]. discriminate H. Qed.

Lemma insert_in_tmp (m : filesystem) (s : string) (v : node) (q : path) :
  in_tmp s -> ~ tmp_path q -> <[Path s := v]> m !! q = m !! q.
Proof.
  intros Hs Hq. apply lookup_insert_ne. intros <-. now apply Hq, Path_in_tmp.
Qed.

Lemma remove_local_in_tmp (file : option string) (m : filesystem) (q : path) :
  local_in_tmp file -> ~ tmp_path q -> remove_local file m !! q = m !! q.
Proof.
  intros Hf Hq. unfold remove_local. destruct file as [f|]; [|reflexivity].
  destruct (truthy_str (Some f)); [|reflexivity].
  apply lookup_delete_ne. intros <-. now apply Hq, Path_in_tmp, Hf.
Qed.

Lemma lookup_ensure_file_ne (p q : path) (m : filesystem) :
  q <> p -> ensure_file p m !! q = m !! q.
Proof.
  intros Hq. unfold ensure_file. destruct (m !! p); [reflexivity|].
  now apply lookup_insert_ne.
Qed.

Lemma lookup_ensure_file_eq (p : path) (m : filesystem) :
  ensure_file p m !! p = Some (default (File Raw) (m !! p)).
Proof.
  unfold ensure_file. destruct (m !! p) as [v|] eqn:Hp; [exact Hp|].
  apply lookup_insert_eq.
Qed.

Lemma repair_files_outside (env : repeat_env) (n : nat) (m : filesystem) (q : path) :
  ~ tmp_path q -> repair_files env n m !! q = m !! q.
Proof.
  intros Hq. unfold repair_files. destruct (returns (tmp_fixed env)); [|reflexivity].
  apply insert_in_tmp; [apply temp_name_in_tmp | exact Hq].
Qed.

Lemma annotate_files_outside (env : repeat_env) (use_temp : pyval) (out : string) (m : filesystem) (q : path) :
  in_tmp out -> ~ tmp_path q -> q <> immunopdb_log ->
  annotate_files env use_temp out m !! q = m !! q.
Proof.
  intros Hout Hq Hlog. unfold annotate_files. cbv zeta.
  destruct (child_ran env && returns (log_open env));
    rewrite ?lookup_ensure_file_ne by exact Hlog;
    destruct (truthy use_temp || child_wrote env);
    rewrite ?insert_in_tmp by auto; reflexivity.
Qed.

Lemma iteration_confined w0 env p use_temp pH i st :
  confined w0 st -> confined w0 (snd (iteration env p use_temp pH i st)).
Proof.
  intros (Hfs & Hfixed & Himmuno).
  pose proof (temp_name_in_tmp (next_tmp (here st)) ".pdb") as Hname.
  pose proof (out_name_in_tmp use_temp (next_tmp (here st))) as Hout.
  destruct (iteration_world env p use_temp pH i st)
    as (st' & -> & _ & Hf' & Hi' & Hfs' & _).
  cbn [snd]. cbv zeta in Hfs'.
  assert (Hsome : forall s, in_tmp s -> local_in_tmp (Some s))
    by (intros s Hs f [= <-]; exact Hs).
  assert (Hf'' : local_in_tmp (fixed_pdb_path st'))
    by (rewrite Hf'; destruct (repaired (env i)); auto).
  assert (Hi'' : local_in_tmp (immuno_output st')).
  { rewrite Hi'. destruct (spawned use_temp (env i)); [|exact Himmuno].
    destruct (exited_zero (env i) && log_kept (env i) (PyBool false)); [now apply Hsome|].
    intros f [=]. }
  split; [|split; assumption].
  intros q Hq Hlog. rewrite Hfs'.
  rewrite !remove_local_in_tmp by auto.
  destruct (spawned use_temp (env i));
    rewrite ?annotate_files_outside, repair_files_outside by auto; auto.
Qed.

Lemma repeats_confined w0 env p use_temp pH (l : list nat) st :
  confined w0 st -> confined w0 (snd (for_each l (iteration env p use_temp pH) st)).
Proof.
  revert st. induction l as [|i l IH]; intros st Hst; [exact Hst|].
  cbn [for_each]. unfold bind.
  pose proof (iteration_confined w0 env p use_temp pH i st Hst) as H1.
  destruct (iteration_run env p use_temp pH i st) as (st1 & Heq & _).
  rewrite Heq in *. cbn [snd] in H1. now apply IH.
Qed.

(** X6. Whatever the collaborators and the system answer, a task creates,
    overwrites and deletes nothing but entries below [/tmp] and the
    annotator's log [immunopdb.log]: every other entry of the file system,
    the structure file it was given among them, is after the task what it
    was before. *)
Theorem task_touches_only_tmp_and_log reload env p (R : Z) use_temp pH w q :
  ~ tmp_path q -> q <> immunopdb_log ->
  fs (snd (process_pdb_file reload env p (PyInt R) use_temp pH w)) !! q = fs w !! q.
Proof.
  intros Hq Hlog.
  unfold process_pdb_file, process_pdb_file_frame. run_monad.
  cbn [here fixed_pdb_path immuno_output all_results fs next_tmp trace fst snd].
  destruct reload as [[]|e]; cbn [range]; [|reflexivity].
  match goal with
  | |- context [for_each ?l ?body ?s] =>
      assert (Hc : confined w (snd (for_each l body s)));
      [ apply repeats_confined;
        (split; [reflexivity | split; intros f [=]])
      | destruct (repeats_run env p use_temp pH l s) as (st' & Heq & _) ]
  end.
  rewrite Heq in *. cbn [snd here] in *. now apply Hc.
Qed.

Lemma task_touches_only_tmp_and_log_witness :
  fs (snd (process_pdb_file Sample.config_found (fun _ => Sample.malformed)
             "data/a.pdb" (PyInt 2) (PyFloat 7.0) (PyFloat 7.0) Sample.start))
    !! ["data"; "a.pdb"]
  = Some (File Raw).
Proof.
  etransitivity.
  - apply (task_touches_only_tmp_and_log Sample.config_found
             (fun _ => Sample.malformed) "data/a.pdb" 2
             (PyFloat 7.0) (PyFloat 7.0) Sample.start ["data"; "a.pdb"]).
    + intros [rest H]. discriminate H.
    + discriminate.
  - vm_compute. reflexivity.
Defined.

(** ** When the clean-up is complete *)

Lemma delete_both_restores (m : filesystem) (a b : path) (x : filesystem) :
  m !! a = None -> m !! b = None ->
  (forall q, q <> a -> q <> b -> x !! q = m !! q) ->
  delete b (delete a x) = m.
Proof.
  intros Ha Hb Hx. apply map_eq. intros q.
  destruct (decide (q = b)) as [->|Hqb]; [now rewrite lookup_delete_eq|].
  rewrite lookup_delete_ne by congruence.
  destruct (decide (q = a)) as [->|Hqa]; [now rewrite lookup_delete_eq|].
  rewrite lookup_delete_ne by congruence. now apply Hx.
Qed.

Lemma ensure_file_idemp (p : path) (m : filesystem) :
  ensure_file p (ensure_file p m) = ensure_file p m.
Proof.
  unfold ensure_file at 1. now rewrite lookup_ensure_file_eq.
Qed.

Lemma ensure_log_in_tmp (m : filesystem) (s : string) :
  in_tmp s -> ensure_file immunopdb_log m !! Path s = m !! Path s.
Proof.
  intros Hs. apply lookup_ensure_file_ne. intros Heq.
  apply log_not_in_tmp. rewrite <- Heq. now apply Path_in_tmp.
Qed.

Lemma exited_zero_ran env : exited_zero env = true -> child_ran env = true.
Proof. unfold exited_zero, child_ran. now destruct (subprocess_run env). Qed.

Lemma log_kept_opened env log_output :
  log_kept env log_output = true -> returns (log_open env) = true.
Proof.
  unfold log_kept. destruct (subprocess_run env); [|discriminate].
  now destruct (returns (log_open env)).
Qed.

Lemma iteration_restores env p use_temp pH i st :
  names_unused (here st) ->
  repaired (env i) = true -> annotated use_temp (env i) = true ->
  let st' := snd (iteration env p use_temp pH i st) in
  fs (here st') = ensure_file immunopdb_log (fs (here st))
  /\ (next_tmp (here st) <= next_tmp (here st'))%nat.
Proof.
  intros Hunused Hrep Hann. cbv zeta.
  destruct (Hunused (next_tmp (here st)) use_temp (le_n _)) as [Hname Hout].
  pose proof (temp_name_in_tmp (next_tmp (here st)) ".pdb") as Hin_name.
  pose proof (out_name_in_tmp use_temp (next_tmp (here st))) as Hin_out.
  destruct (iteration_world env p use_temp pH i st)
    as (st' & -> & _ & Hf' & Hi' & Hfs' & Hn' & _).
  cbn [snd]. cbv zeta in Hfs'.
  unfold annotated in Hann.
  apply andb_prop in Hann as [[Hal Hzero]%andb_prop Hlog].
  unfold spawned in *. rewrite Hrep, Hal, Hzero, Hlog in *. cbn [andb] in *.
  split; [|rewrite Hn'; destruct (returns (tmp_fixed (env i))), (truthy use_temp);
           cbn [andb]; lia].
  rewrite Hfs', Hi', Hf'. unfold remove_local.
  rewrite !rooted_truthy
    by (first [ apply temp_name_rooted
              | destruct Hin_out as [r ->]; eexists; reflexivity ]).
  apply delete_both_restores.
  - now rewrite ensure_log_in_tmp.
  - now rewrite ensure_log_in_tmp.
  - intros q Hqa Hqb. unfold annotate_files, repair_files. cbv zeta.
    rewrite (exited_zero_ran _ Hzero), (log_kept_opened _ _ Hlog),
      (repaired_allocates _ Hrep).
    cbn [andb].
    assert (Hmid : forall q' : path,
               q' <> Path (temp_name (next_tmp (here st)) ".pdb") ->
               q' <> Path (out_name use_temp (next_tmp (here st))) ->
               (if truthy use_temp || child_wrote (env i)
                then <[Path (out_name use_temp (next_tmp (here st))) := File Raw]>
                       (<[Path (temp_name (next_tmp (here st)) ".pdb") := File Raw]>
                          (fs (here st)))
                else <[Path (temp_name (next_tmp (here st)) ".pdb") := File Raw]>
                       (fs (here st))) !! q'
               = fs (here st) !! q').
    { intros q' Ha Hb. destruct (truthy use_temp || child_wrote (env i));
        now rewrite ?lookup_insert_ne by congruence. }
    destruct (decide (q = immunopdb_log)) as [->|Hql].
    + rewrite !lookup_ensure_file_eq. now rewrite Hmid.
    + rewrite !lookup_ensure_file_ne by exact Hql. now apply Hmid.
Qed.

Lemma repeats_restore env p use_temp pH (k i0 : nat) st :
  names_unused (here st) ->
  (forall i, (i0 <= i < i0 + k)%nat ->
     repaired (env i) = true /\ annotated use_temp (env i) = true) ->
  fs (here (snd (for_each (seq i0 k) (iteration env p use_temp pH) st)))
  = match k with
    | O => fs (here st)
    | S _ => ensure_file immunopdb_log (fs (here st))
    end.
Proof.
  revert i0 st. induction k as [|k IH]; intros i0 st Hunused Hall; [reflexivity|].
  cbn [seq for_each]. unfold bind.
  destruct (Hall i0 ltac:(lia)) as [Hrep Hann].
  pose proof (iteration_restores env p use_temp pH i0 st Hunused Hrep Hann)
    as [Hfs Hn].
  destruct (iteration_run env p use_temp pH i0 st) as (st1 & Heq & _).
  rewrite Heq in *. cbn [snd] in Hfs, Hn.
  rewrite IH; [| |intros i Hi; apply Hall; lia].
  - rewrite Hfs. destruct k; [reflexivity | apply ensure_file_idemp].
  - intros n u Hle. rewrite Hfs.
    rewrite !ensure_log_in_tmp
      by (first [apply temp_name_in_tmp | apply out_name_in_tmp]).
    apply Hunused. lia.
Qed.

(** X7. If the configuration reload returns and in every repeat the repair
    succeeds, ImmunoPDB exits with status zero and its log is kept (opened,
    written and closed without an exception), the task leaves the file
    system as it found it but for the annotator's log, which it creates if
    it is missing; this holds also when the feature
    computation raises, provided the names the task allocates were unused
    beforehand.  A task whose reload raises, or that has no repeat to run,
    leaves the file system exactly as it found it. *)
Theorem task_restores_file_system reload env p (R : Z) use_temp pH w :
  names_unused w ->
  (forall i, (i < Z.to_nat R)%nat ->
     repaired (env i) = true /\ annotated use_temp (env i) = true) ->
  fs (snd (process_pdb_file reload env p (PyInt R) use_temp pH w))
  = if returns reload && (0 <? R)%Z
    then ensure_file immunopdb_log (fs w)
    else fs w.
Proof.
  intros Hunused Hall.
  unfold process_pdb_file, process_pdb_file_frame. run_monad.
  cbn [here fixed_pdb_path immuno_output all_results fs next_tmp trace fst snd].
  destruct reload as [[]|e]; cbn [range returns andb]; [|reflexivity].
  match goal with
  | |- context [for_each (seq 0 ?k) ?body ?s] =>
      pose proof (repeats_restore env p use_temp pH k 0 s Hunused) as Hfs;
      destruct (repeats_run env p use_temp pH (seq 0 k) s) as (st' & Heq & _)
  end.
  rewrite Heq in *. cbn [snd here fs] in *.
  rewrite Hfs by (intros i Hi; apply Hall; lia).
  destruct (Z.ltb_spec 0 R) as [Hpos|Hneg].
  - destruct (Z.to_nat R) eqn:HR; [lia | reflexivity].
  - now replace (Z.to_nat R) with 0%nat by lia.
Qed.

Lemma tmp_path_not_on_sample_disk q : tmp_path q -> Sample.disk !! q = None.
Proof.
  intros [rest ->]. apply not_elem_of_list_to_map_1. cbn.
  intros H. repeat (apply elem_of_cons in H as [H | H]; [discriminate H|]).
  now apply elem_of_nil in H.
Qed.

Lemma task_restores_file_system_witness :
  fs (snd (process_pdb_file Sample.config_found (fun _ => Sample.all_well)
             "data/a.pdb" (PyInt 2) (PyFloat 7.0) (PyFloat 7.0) Sample.start))
  = <[ ["immunopdb.log"] := File Raw ]> Sample.disk.
Proof.
  etransitivity.
  - apply (task_restores_file_system Sample.config_found
             (fun _ => Sample.all_well) "data/a.pdb" 2
             (PyFloat 7.0) (PyFloat 7.0) Sample.start).
    + intros n u _. split; apply tmp_path_not_on_sample_disk, Path_in_tmp.
      * apply temp_name_in_tmp.
      * apply out_name_in_tmp.
    + intros i _. split; reflexivity.
  - reflexivity.
Defined.

(** ** What [run_immunopdb] leaves behind and what it logs *)

(** X8. With [use_temp] true, [run_immunopdb] first allocates a temporary
    output file: if that raises, nothing has happened; if not, the file
    exists afterwards whatever the child did, also when the call returns
    [None].  With [use_temp] false it allocates nothing: the output path is
    [fixed_pdb_path] with [.pdb] replaced by [_immuno_output.pdb], and that
    file is there afterwards only if the child itself created it.  In both
    cases [immunopdb.log] is created, if it was missing, once
    [subprocess.run] has returned and the log could be opened. *)
Theorem run_immunopdb_output_file env fixed_pdb_path use_temp log_output w :
  let w' := snd (run_immunopdb env fixed_pdb_path use_temp log_output w) in
  let with_log (m : filesystem) :=
    if child_ran env && returns (log_open env)
    then ensure_file immunopdb_log m else m in
  (truthy use_temp = true ->
     match tmp_output env with
     | Returns _ =>
         fs w' = with_log (<[Path (temp_name (next_tmp w) "_immuno_output.pdb")
                             := File Raw]> (fs w))
         /\ next_tmp w' = S (next_tmp w)
     | Raises _ => w' = w
     end)
  /\ (truthy use_temp = false ->
        next_tmp w' = next_tmp w
        /\ fs w' = with_log
                     (if child_writes_output env
                      then <[Path (str_replace ".pdb" "_immuno_output.pdb"
                                     fixed_pdb_path) := File Raw]> (fs w)
                      else fs w)).
Proof.
  cbv zeta.
  destruct (run_immunopdb_world env fixed_pdb_path use_temp log_output w)
    as (Hfs & Hn & _).
  unfold immuno_output_file, allocated, annotate_files, child_wrote in Hfs.
  cbv zeta in Hfs.
  split; intros Hu; rewrite Hu in Hfs, Hn; cbn [negb orb andb] in Hfs, Hn.
  - destruct (run_immunopdb_run env fixed_pdb_path use_temp log_output w)
      as [[Hal _] | [Hal (e & w' & Heq & _ & He & ->)]].
    + unfold allocated in Hal. rewrite Hu in Hal. cbn [negb orb] in Hal.
      destruct (tmp_output env) as [[]|e]; [|discriminate]. auto.
    + rewrite He, Heq. reflexivity.
  - auto.
Qed.

Lemma logged_errors_app t t' :
  logged_errors (t ++ t') = logged_errors t ++ logged_errors t'.
Proof. apply omap_app. Qed.

(** X9. When [run_immunopdb] cannot allocate its temporary output file it
    logs nothing (it raises).  Otherwise it writes an ERROR record with the
    standard error of the child exactly when that is not empty and the call
    got as far as logging it ([subprocess.run] returned, the log was opened
    and the writes up to there went through), whatever the exit status: a
    non-zero exit with an empty standard error is logged as no error, and a
    zero exit after output on standard error is.  After that it writes the
    ERROR record [Failed to run ImmunoPDB] exactly when the [try] block was
    left by an exception: [subprocess.run] raised, or the log could not be
    opened, written or closed. *)
Theorem run_immunopdb_error_records env fixed_pdb_path use_temp log_output w :
  logged_errors (trace (snd (run_immunopdb env fixed_pdb_path use_temp log_output w)))
  = logged_errors (trace w)
    ++ (if allocated use_temp env
        then match stderr_logged env log_output with
             | Some err =>
                 ["ImmunoPDB error for " +:+ fixed_pdb_path +:+ ": " +:+ err]
             | None => []
             end
             ++ (if log_kept env log_output then []
                 else ["Failed to run ImmunoPDB on " +:+ fixed_pdb_path])
        else []).
Proof.
  destruct (allocated use_temp env) eqn:Hal.
  - destruct (run_immunopdb_returns env fixed_pdb_path use_temp log_output w Hal)
      as (t & -> & _ & _ & Herr).
    cbn [snd trace]. rewrite logged_errors_app. f_equal. exact Herr.
  - destruct (run_immunopdb_raises env fixed_pdb_path use_temp log_output w Hal)
      as (e & _ & _ & ->).
    cbn [snd]. now rewrite app_nil_r.
Qed.

(** ** Tasks that complete in the order they were submitted *)

Lemma wait_loop_in_order cluster next_done tasks acc :
  (forall t ts, next_done (t :: ts) mod length (t :: ts) = 0)%nat ->
  wait_loop cluster next_done tasks acc
  = match ray_get cluster tasks with
    | Returns rs => Returns (acc ++ rs)
    | Raises e => Raises e
    end.
Proof.
  intros Hfirst. revert acc. induction tasks as [|t ts IH]; intros acc.
  - simp wait_loop. cbn. now rewrite app_nil_r.
  - simp wait_loop. unfold ray_wait, ray_get in *. rewrite Hfirst.
    change (map_answer cluster (t :: ts))
      with (match cluster t with
            | Returns y =>
                match map_answer cluster ts with
                | Returns ys => Returns (y :: ys)
                | Raises e => Raises e
                end
            | Raises e => Raises e
            end).
    change (fst (option_list ((t :: ts) !! 0%nat), delete 0%nat (t :: ts)))
      with [t].
    change (snd (option_list ((t :: ts) !! 0%nat), delete 0%nat (t :: ts)))
      with ts.
    cbn [map_answer].
    destruct (cluster t) as [y|e]; [|reflexivity].
    rewrite IH. destruct (map_answer cluster ts) as [ys|e]; [|reflexivity].
    now rewrite <- app_assoc.
Qed.

(** X10. If [ray.wait] always reports the first pending task (the tasks
    complete in the order they were submitted), a run with [--wait] ends
    exactly as a run without it: same outcome, same output file, same
    trace. *)
Theorem wait_in_submission_order_is_get
    cluster next_done output input repeats pH out d :
  (forall t ts, next_done (t :: ts) mod length (t :: ts) = 0)%nat ->
  run_processing cluster next_done output input repeats pH true out d
  = run_processing cluster next_done output input repeats pH false out d.
Proof.
  intros Hfirst. rewrite !run_processing_run.
  destruct (fst (get_pdb_files input (host d))) as [files|e]; [|reflexivity].
  cbn zeta. unfold collect. rewrite wait_loop_in_order by exact Hfirst.
  now destruct (ray_get cluster _).
Qed.

Lemma wait_in_submission_order_is_get_witness :
  run_processing
    (run_call (fun _ => Sample.config_found) Sample.second_repeat_fails Sample.start)
    (fun _ => 0%nat) Written "data" 2 7.0 true "out.json" (fresh_driver Sample.start)
  = run_processing
      (run_call (fun _ => Sample.config_found) Sample.second_repeat_fails Sample.start)
      (fun _ => 0%nat) Written "data" 2 7.0 false "out.json"
      (fresh_driver Sample.start).
Proof.
  apply (wait_in_submission_order_is_get
           (run_call (fun _ => Sample.config_found) Sample.second_repeat_fails
              Sample.start)
           (fun _ => 0%nat) Written "data" 2 7.0 "out.json"
           (fresh_driver Sample.start)).
  intros t ts. apply Nat.Div0.mod_0_l.
Defined.

(** ** Features are computed on annotated files only *)

Lemma spawned_annotated use_temp env :
  spawned use_temp env && (exited_zero env && log_kept env (PyBool false))
  = repaired env && annotated use_temp env.
Proof. unfold spawned, annotated. now rewrite !andb_assoc. Qed.

Lemma repeats_calls env p use_temp pH (l : list nat) st :
  exists calls,
    feature_calls (trace (here (snd (for_each l (iteration env p use_temp pH) st))))
    = feature_calls (trace (here st)) ++ calls
    /\ length calls
       = length (List.filter (fun i => repaired (env i) && annotated use_temp (env i)) l)
    /\ Forall in_tmp calls.
Proof.
  revert st. induction l as [|i l IH]; intros st.
  - exists []. cbn. now rewrite app_nil_r.
  - cbn [for_each List.filter]. unfold bind.
    destruct (iteration_world env p use_temp pH i st)
      as (st1 & -> & _ & _ & _ & _ & _ & Hc1).
    cbv zeta in Hc1. rewrite spawned_annotated in Hc1. cbn [snd].
    destruct (IH st1) as (c2 & Hc2 & Hlen2 & Htmp2).
    rewrite Hc2, Hc1, <- app_assoc.
    eexists. split; [reflexivity|].
    destruct (repaired (env i) && annotated use_temp (env i)); cbn [app length].
    + split; [now rewrite Hlen2|]. constructor; [apply out_name_in_tmp | exact Htmp2].
    + now split.
Qed.

(** X11. A task whose configuration reload raises never calls
    [calculate_patch_features].  One whose reload returns calls it once in
    each repeat in which the repair succeeded, the child exited with status
    zero and the log was kept, and in no other repeat; every such
    call is made on a file below [/tmp], never on the structure file the
    task was given. *)
Theorem features_computed_on_annotated_files_only
    reload env p (R : Z) use_temp pH w :
  exists calls,
    feature_calls (trace (snd (process_pdb_file reload env p (PyInt R) use_temp pH w)))
    = feature_calls (trace w) ++ calls
    /\ length calls
       = (if returns reload
          then length (List.filter
                         (fun i => repaired (env i) && annotated use_temp (env i))
                         (seq 0 (Z.to_nat R)))
          else 0%nat)
    /\ Forall in_tmp calls.
Proof.
  unfold process_pdb_file, process_pdb_file_frame. run_monad.
  cbn [here fixed_pdb_path immuno_output all_results fs next_tmp trace fst snd].
  destruct reload as [[]|e]; cbn [range returns].
  - match goal with
    | |- context [for_each ?l ?body ?s] =>
        destruct (repeats_calls env p use_temp pH l s) as (calls & Hc & Hlen & Htmp);
        destruct (repeats_run env p use_temp pH l s) as (st' & Heq & _)
    end.
    rewrite Heq in *. cbn [snd here trace] in *.
    exists calls. rewrite Hc, feature_calls_snoc. now rewrite app_nil_r.
  - exists []. cbn [snd here trace]. rewrite feature_calls_snoc.
    now repeat split.
Qed.

(** ** The exit status *)

Lemma collect_returns_iff cluster next_done use_ray_wait tasks :
  returns (collect cluster next_done use_ray_wait tasks)
  = forallb (fun c => returns (cluster c)) tasks.
Proof.
  destruct (map_answer_cases cluster tasks) as [(ys & Hm & Hall) | (e & Hm & Hex)].
  - assert (Hf : forallb (fun c => returns (cluster c)) tasks = true).
    { apply forallb_forall. intros c Hc.
      apply list_elem_of_In, list_elem_of_lookup in Hc as [k Hk].
      destruct (Forall2_lookup_l _ _ _ _ _ Hall Hk) as (y & _ & ->). reflexivity. }
    rewrite Hf. unfold collect, ray_get. destruct use_ray_wait; [|now rewrite Hm].
    now destruct (wait_loop_Returns cluster next_done tasks ys [] Hall) as (ys' & -> & _).
  - destruct (collect_Raises cluster next_done use_ray_wait tasks Hex) as (e' & ->).
    symmetry. apply not_true_iff_false. intros Hf.
    apply Exists_exists in Hex as (c & Hc & e0 & He0).
    apply list_elem_of_In in Hc.
    rewrite forallb_forall in Hf. specialize (Hf c Hc). now rewrite He0 in Hf.
Qed.

(** X12. In either collection mode the process ends with status 0 exactly
    when the input resolves, every submitted task returns and the output
    file is opened and written; otherwise it ends with status 1 (an invalid
    input through the uncaught [ValueError]; a failed task, an output file
    that cannot be opened or a failed [json.dump] through [exit(1)]). *)
Theorem run_processing_exit_status
    cluster next_done output input repeats pH use_ray_wait out d :
  exit_code (fst (run_processing cluster next_done output input repeats pH
                    use_ray_wait out d))
  = match fst (get_pdb_files input (host d)) with
    | Ok files =>
        if forallb (fun c => returns (cluster c))
             (map (submission repeats pH) files)
           && output_written output
        then 0%Z else 1%Z
    | Raise _ => 1%Z
    end.
Proof.
  rewrite run_processing_run.
  destruct (fst (get_pdb_files input (host d))) as [files|e] eqn:Hget.
  - cbn zeta. rewrite <- (collect_returns_iff cluster next_done use_ray_wait).
    destruct (collect cluster next_done use_ray_wait _); [|reflexivity].
    now destruct output.
  - unfold get_pdb_files in Hget.
    destruct (is_dir _ _); [discriminate|].
    destruct (is_file _ _ && _); [discriminate|].
    now injection Hget as <-.
Qed.

(** ** A configuration that cannot be reloaded *)

(** X13. If the input resolves and the configuration reload of one of the
    tasks raises, the run is lost: in either collection mode, and whatever
    the other tasks computed, [run_processing] exits with status 1 and
    leaves the file system of the orchestrator as it was, with no output
    file written. *)
Theorem reload_failure_is_fatal
    reload env w next_done output input repeats pH use_ray_wait out d
    (files : list path) (pdb : path) :
  fst (get_pdb_files input (host d)) = Ok files ->
  pdb ∈ files ->
  returns (reload (str pdb)) = false ->
  exists d',
    run_processing (run_call reload env w) next_done output input repeats pH
      use_ray_wait out d = (Raise (SystemExit 1), d')
    /\ fs (host d') = fs (host d)
    /\ submitted d' = submitted d ++ map (submission repeats pH) files.
Proof.
  intros Hget Hin Hreload. rewrite run_processing_run, Hget. cbn zeta.
  assert (Hex : Exists (fun c => exists e, run_call reload env w c = Raises e)
                  (map (submission repeats pH) files)).
  { apply Exists_exists. exists (submission repeats pH pdb).
    split; [now apply list_elem_of_fmap_2|].
    rewrite run_call_submission.
    destruct (reload (str pdb)); [discriminate | eauto]. }
  destruct (collect_Raises _ next_done use_ray_wait _ Hex) as (e & ->).
  eexists. repeat split.
Qed.

Lemma reload_failure_is_fatal_witness :
  exists d',
    run_processing
      (run_call (fun _ => Sample.config_missing) (fun _ _ => Sample.all_well)
         Sample.start)
      (fun _ => 0%nat) Written "data/a.pdb" 1 7.0 false "out.json"
      (fresh_driver Sample.start)
    = (Raise (SystemExit 1), d')
    /\ fs (host d') = Sample.disk
    /\ submitted d' = [TaskCall "data/a.pdb" (PyInt 1) (PyFloat 7.0) (PyFloat 7.0)].
Proof.
  apply (reload_failure_is_fatal (fun _ => Sample.config_missing)
           (fun _ _ => Sample.all_well) Sample.start (fun _ => 0%nat) Written
           "data/a.pdb" 1 7.0 false "out.json" (fresh_driver Sample.start)
           [["data"; "a.pdb"]] ["data"; "a.pdb"]).
  - vm_compute. reflexivity.
  - now left.
  - reflexivity.
Defined.
